(** * LP50XX: register-level driver for the LP5009 / LP5012 LED drivers

    A shallow embedding of [src/LP50XX.cpp] and [src/LP50XX.h].

    The driver is a thin layer over two services that live outside the
    repository: the two-wire bus helpers of [I2C_coms.h] ([i2c_init],
    [i2c_write_byte], [i2c_read_byte], [i2c_write_multi]) and the Arduino
    core ([pinMode], [digitalWrite], [delay], [delayMicroseconds]).  Every
    call into one of them is recorded, with its arguments, in a
    chronological log; what the bus answers is supplied by an arbitrary
    [Transport].  Assignments to the members of the driver object are
    logged as well, so that their position among the external calls can be
    stated.

    Integers: a [uint8_t] is a [Z] in [0, 256); where the source stores an
    [int] expression into a [uint8_t] the truncation is written [to_u8].
    Arguments of the external calls are logged with the value of the
    argument expression (after the usual promotion to [int]). *)

From Stdlib Require Import ZArith List Bool Lia Permutation.
Import ListNotations.
Local Open Scope Z_scope.

(** ** Machine integers *)

Definition to_u8 (x : Z) : Z := x mod 256.

Definition is_u8 (x : Z) : Prop := 0 <= x < 256.

(** C truth value of an integer expression used as a condition. *)
Definition c_true (x : Z) : bool := negb (x =? 0).

(** ** Constants and enumerations of [LP50XX.h] *)

Definition DEFAULT_ADDRESS : Z := 0x14.
Definition BROADCAST_ADDRESS : Z := 0x0C.

Inductive LED_Configuration : Type :=
| RGB
| GRB
| BGR
| RBG
| GBR
| BRG.

Definition LED_0 : Z := 1.
Definition LED_1 : Z := 2.
Definition LED_2 : Z := 4.
Definition LED_3 : Z := 8.

Definition LED_GLOBAL_ON : Z := Z.shiftl 0 0.
Definition LED_GLOBAL_OFF : Z := Z.shiftl 1 0.
Definition MAX_CURRENT_25mA : Z := Z.shiftl 0 1.
Definition MAX_CURRENT_35mA : Z := Z.shiftl 1 1.
Definition PWM_DITHERING_OFF : Z := Z.shiftl 0 2.
Definition PWM_DITHERING_ON : Z := Z.shiftl 1 2.
Definition AUTO_INC_OFF : Z := Z.shiftl 0 3.
Definition AUTO_INC_ON : Z := Z.shiftl 1 3.
Definition POWER_SAVE_OFF : Z := Z.shiftl 0 4.
Definition POWER_SAVE_ON : Z := Z.shiftl 1 4.
Definition LOG_SCALE_OFF : Z := Z.shiftl 0 5.
Definition LOG_SCALE_ON : Z := Z.shiftl 1 5.

(** [enum EAddressType { Normal, Broadcast }].  The selector is kept as the
    integer that represents it, because [getAddress] has a [default:]
    branch for values that are neither enumerator. *)
Definition EAddressType : Type := Z.
Definition Normal : EAddressType := 0.
Definition Broadcast : EAddressType := 1.

Definition DEVICE_CONFIG0 : Z := 0x00.
Definition DEVICE_CONFIG1 : Z := 0x01.
Definition LED_CONFIG0 : Z := 0x02.
Definition BANK_BRIGHTNESS : Z := 0x03.
Definition BANK_A_COLOR : Z := 0x04.
Definition BANK_B_COLOR : Z := 0x05.
Definition BANK_C_COLOR : Z := 0x06.
Definition LED0_BRIGHTNESS : Z := 0x07.
Definition LED1_BRIGHTNESS : Z := 0x08.
Definition LED2_BRIGHTNESS : Z := 0x09.
Definition LED3_BRIGHTNESS : Z := 0x0A.
Definition OUT0_COLOR : Z := 0x0F.
Definition OUT11_COLOR : Z := 0x1A.
Definition RESET_REGISTERS : Z := 0x27.

(** ** The driver object *)

Record LP50XX : Type := mkLP50XX {
  _i2c_address : Z;
  _i2c_address_broadcast : Z;
  _enable_pin : Z;
  _led_configuration : LED_Configuration
}.

(** Member initialisers of the class: [_i2c_address] has none, so a freshly
    constructed object holds whatever [indeterminate] byte was there. *)
Definition LP50XX_members (indeterminate : Z) : LP50XX :=
  {| _i2c_address := indeterminate;
     _i2c_address_broadcast := BROADCAST_ADDRESS;
     _enable_pin := 0xFF;
     _led_configuration := RGB |}.

(** ** External calls and the log *)

Inductive PinLevel : Type := LOW | HIGH.
Inductive PinModeKind : Type := OUTPUT.

Inductive Event : Type :=
| I2cInit
| PinMode (pin : Z) (mode : PinModeKind)
| DigitalWrite (pin : Z) (level : PinLevel)
| DelayMicroseconds (us : Z)
| Delay (ms : Z)
| I2cWriteByte (address reg val : Z)
| I2cReadByte (address reg : Z) (got : Z)
| I2cWriteMulti (address reg : Z) (buf : list Z) (count : Z)
| StoreI2cAddress (val : Z)
| StoreEnablePin (val : Z)
| StoreLedConfiguration (val : LED_Configuration).

(** What the bus does is not decided by the driver.  [rx] is the byte a
    read leaves in the caller's buffer and [ack] tells whether a
    transaction completed; both may depend on everything that happened
    before. *)
Record Transport : Type := mkTransport {
  rx : list Event -> Z -> Z -> Z;
  ack : list Event -> bool
}.

Record World : Type := mkWorld {
  dev : LP50XX;
  log : list Event
}.

(** ** A reader-and-state monad for the member functions *)

Definition M (A : Type) : Type := Transport -> World -> A * World.

Definition ret {A : Type} (a : A) : M A := fun _ w => (a, w).

Definition bind {A B : Type} (c : M A) (k : A -> M B) : M B :=
  fun t w => let (a, w') := c t w in k a t w'.

Declare Scope lp_scope.
Delimit Scope lp_scope with lp.
Notation "x <- c ;; k" := (bind c (fun x => k))
  (at level 61, c at next level, right associativity) : lp_scope.
Notation "c ;; k" := (bind c (fun _ => k))
  (at level 61, right associativity) : lp_scope.
Local Open Scope lp_scope.

Definition emit (e : Event) : M unit :=
  fun _ w => (tt, {| dev := dev w; log := log w ++ [e] |}).

Definition load {A : Type} (field : LP50XX -> A) : M A :=
  fun _ w => (field (dev w), w).

Definition acked : M bool := fun t w => (ack t (log w), w).

Definition received (address reg : Z) : M Z :=
  fun t w => (to_u8 (rx t (log w) address reg), w).

Definition update (f : LP50XX -> LP50XX) : M unit :=
  fun _ w => (tt, {| dev := f (dev w); log := log w |}).

(** Assignments to the members. *)
Definition store_i2c_address (v : Z) : M unit :=
  update (fun d => {| _i2c_address := v;
                      _i2c_address_broadcast := _i2c_address_broadcast d;
                      _enable_pin := _enable_pin d;
                      _led_configuration := _led_configuration d |}) ;;
  emit (StoreI2cAddress v).

Definition store_enable_pin (v : Z) : M unit :=
  update (fun d => {| _i2c_address := _i2c_address d;
                      _i2c_address_broadcast := _i2c_address_broadcast d;
                      _enable_pin := v;
                      _led_configuration := _led_configuration d |}) ;;
  emit (StoreEnablePin v).

Definition store_led_configuration (v : LED_Configuration) : M unit :=
  update (fun d => {| _i2c_address := _i2c_address d;
                      _i2c_address_broadcast := _i2c_address_broadcast d;
                      _enable_pin := _enable_pin d;
                      _led_configuration := v |}) ;;
  emit (StoreLedConfiguration v).

(** *** The bus helpers of [I2C_coms.h]

    [LP50XX.cpp] includes [I2C_coms.h] and calls its four functions; their
    definitions are not part of the sources at hand.  They are modelled
    after the description of the bus transport: each transaction reports
    whether it completed, and a read also delivers a byte. *)

(** Modelled from the spec: [i2c_init] of [I2C_coms.h], the transport's
    [init()]. *)
Definition i2c_init : M unit := emit I2cInit.

(** Modelled from the spec: [i2c_write_byte] of [I2C_coms.h], the
    transport's [writeByte(busAddress, register, value) -> ok|fail]. *)
Definition i2c_write_byte (address reg val : Z) : M bool :=
  ok <- acked ;;
  emit (I2cWriteByte address reg val) ;;
  ret ok.

(** Modelled from the spec: [i2c_read_byte] of [I2C_coms.h], the
    transport's [readByte(busAddress, register) -> (value, ok|fail)]; the
    value is the byte left in the [uint8_t] the caller points it at. *)
Definition i2c_read_byte (address reg : Z) : M (bool * Z) :=
  ok <- acked ;;
  got <- received address reg ;;
  emit (I2cReadByte address reg got) ;;
  ret (ok, got).

(** Modelled from the spec: [i2c_write_multi] of [I2C_coms.h], the
    transport's [writeBurst(busAddress, startRegister, bytes) -> ok|fail]. *)
Definition i2c_write_multi (address reg : Z) (buf : list Z) (count : Z)
  : M bool :=
  ok <- acked ;;
  emit (I2cWriteMulti address reg buf count) ;;
  ret ok.

(** *** The services of the Arduino core *)
Definition pinMode (pin : Z) (mode : PinModeKind) : M unit :=
  emit (PinMode pin mode).
Definition digitalWrite (pin : Z) (level : PinLevel) : M unit :=
  emit (DigitalWrite pin level).
Definition delayMicroseconds (us : Z) : M unit := emit (DelayMicroseconds us).
Definition delay (ms : Z) : M unit := emit (Delay ms).

(** [if (c) { body }] without an else branch. *)
Definition when (c : bool) (body : M unit) : M unit :=
  if c then body else ret tt.

(** ** Member functions of [LP50XX.cpp] *)

(** *** Helper: [getAddress] *)

Definition getAddress_of (d : LP50XX) (addressType : EAddressType) : Z :=
  if addressType =? Broadcast then _i2c_address_broadcast d
  else (* case Normal: default: *) _i2c_address d.

Definition getAddress (addressType : EAddressType) : M Z :=
  d <- load (fun d => d) ;;
  ret (getAddress_of d addressType).

(** *** Initialisation functions *)

(** The constructor bodies run on an object whose members hold their
    initialisers.  The statement [LP50XX();] that ends three of them builds
    and drops a temporary; it does nothing to the object. *)
Definition LP50XX_ctor : M unit := ret tt.

Definition LP50XX_ctor_cfg (ledConfiguration : LED_Configuration) : M unit :=
  store_led_configuration ledConfiguration ;;
  ret tt.

Definition LP50XX_ctor_pin (enablePin : Z) : M unit :=
  pinMode enablePin OUTPUT ;;
  store_enable_pin enablePin ;;
  ret tt.

Definition LP50XX_ctor_cfg_pin (ledConfiguration : LED_Configuration)
  (enablePin : Z) : M unit :=
  store_led_configuration ledConfiguration ;;
  pinMode enablePin OUTPUT ;;
  store_enable_pin enablePin ;;
  ret tt.

Definition construct (body : M unit) (t : Transport) (indeterminate : Z)
  : World :=
  snd (body t {| dev := LP50XX_members indeterminate; log := [] |}).

Definition Begin (i2cAddress : Z) : M bool :=
  i2c_init ;;
  store_i2c_address i2cAddress ;;
  enable_pin <- load _enable_pin ;;
  when (negb (enable_pin =? 0xFF))
    (digitalWrite enable_pin HIGH) ;;
  delayMicroseconds 500 ;;
  address <- load _i2c_address ;;
  i2c_write_byte address DEVICE_CONFIG0 (Z.shiftl 1 6) ;;
  ret true.

Definition ResetRegisters (addressType : EAddressType) : M unit :=
  address <- getAddress addressType ;;
  i2c_write_byte address RESET_REGISTERS 0xFF ;;
  ret tt.

Definition Reset : M unit :=
  enable_pin <- load _enable_pin ;;
  when (negb (enable_pin =? 0xFF))
    (digitalWrite enable_pin LOW ;;
     delay 10 ;;
     digitalWrite enable_pin HIGH ;;
     delayMicroseconds 500) ;;
  ResetRegisters Normal ;;
  address <- load _i2c_address ;;
  i2c_write_byte address DEVICE_CONFIG0 (Z.shiftl 1 6) ;;
  ret tt.

(** *** Configuration functions *)

Definition Configure (configuration : Z) (addressType : EAddressType)
  : M unit :=
  address <- getAddress addressType ;;
  i2c_write_byte address DEVICE_CONFIG1 (Z.land configuration 0x3F) ;;
  ret tt.

Definition SetScaling (scaling : Z) : M unit :=
  address <- load _i2c_address ;;
  r <- i2c_read_byte address DEVICE_CONFIG1 ;;
  let buff := snd r in
  let scaling := to_u8 (Z.land scaling (Z.shiftl 1 5)) in
  let buff :=
    if c_true (Z.land (Z.shiftr scaling 5) 1)
    then to_u8 (Z.lor buff (Z.shiftl 1 5))
    else to_u8 (Z.land buff (Z.lnot (Z.shiftl 1 5))) in
  address <- load _i2c_address ;;
  i2c_write_byte address DEVICE_CONFIG1 buff ;;
  ret tt.

Definition SetPowerSaving (powerSave : Z) : M unit :=
  address <- load _i2c_address ;;
  r <- i2c_read_byte address DEVICE_CONFIG1 ;;
  let buff := snd r in
  let powerSave := to_u8 (Z.land powerSave (Z.shiftl 1 4)) in
  let buff :=
    if c_true (Z.land (Z.shiftr powerSave 4) 1)
    then to_u8 (Z.lor buff (Z.shiftl 1 4))
    else to_u8 (Z.land buff (Z.lnot (Z.shiftl 1 4))) in
  address <- load _i2c_address ;;
  i2c_write_byte address DEVICE_CONFIG1 buff ;;
  ret tt.

Definition SetAutoIncrement (autoInc : Z) : M unit :=
  address <- load _i2c_address ;;
  r <- i2c_read_byte address DEVICE_CONFIG1 ;;
  let buff := snd r in
  let autoInc := to_u8 (Z.land autoInc (Z.shiftl 1 3)) in
  let buff :=
    if c_true (Z.land (Z.shiftr autoInc 3) 1)
    then to_u8 (Z.lor buff (Z.shiftl 1 3))
    else to_u8 (Z.land buff (Z.lnot (Z.shiftl 1 3))) in
  address <- load _i2c_address ;;
  i2c_write_byte address DEVICE_CONFIG1 buff ;;
  ret tt.

Definition SetPWMDithering (dithering : Z) : M unit :=
  address <- load _i2c_address ;;
  r <- i2c_read_byte address DEVICE_CONFIG1 ;;
  let buff := snd r in
  let dithering := to_u8 (Z.land dithering (Z.shiftl 1 2)) in
  let buff :=
    if c_true (Z.land (Z.shiftr dithering 2) 1)
    then to_u8 (Z.lor buff (Z.shiftl 1 2))
    else to_u8 (Z.land buff (Z.lnot (Z.shiftl 1 2))) in
  address <- load _i2c_address ;;
  i2c_write_byte address DEVICE_CONFIG1 buff ;;
  ret tt.

Definition SetMaxCurrentOption (option : Z) : M unit :=
  address <- load _i2c_address ;;
  r <- i2c_read_byte address DEVICE_CONFIG1 ;;
  let buff := snd r in
  let option := to_u8 (Z.land option (Z.shiftl 1 1)) in
  let buff :=
    if c_true (Z.land (Z.shiftr option 1) 1)
    then to_u8 (Z.lor buff (Z.shiftl 1 1))
    else to_u8 (Z.land buff (Z.lnot (Z.shiftl 1 1))) in
  address <- load _i2c_address ;;
  i2c_write_byte address DEVICE_CONFIG1 buff ;;
  ret tt.

Definition SetGlobalLedOff (value : Z) : M unit :=
  address <- load _i2c_address ;;
  r <- i2c_read_byte address DEVICE_CONFIG1 ;;
  let buff := snd r in
  let value := to_u8 (Z.land value (Z.shiftl 1 0)) in
  let buff :=
    if c_true (Z.land (Z.shiftr value 0) 1)
    then to_u8 (Z.lor buff (Z.shiftl 1 0))
    else to_u8 (Z.land buff (Z.lnot (Z.shiftl 1 0))) in
  address <- load _i2c_address ;;
  i2c_write_byte address DEVICE_CONFIG1 buff ;;
  ret tt.

Definition SetEnablePin (enablePin : Z) : M unit :=
  pinMode enablePin OUTPUT ;;
  store_enable_pin enablePin.

Definition SetLEDConfiguration (ledConfiguration : LED_Configuration)
  : M unit :=
  store_led_configuration ledConfiguration.

Definition SetI2CAddress (address : Z) : M unit :=
  store_i2c_address address.

(** *** Bank control functions *)

Definition SetBankControl (leds : Z) (addressType : EAddressType) : M unit :=
  address <- getAddress addressType ;;
  i2c_write_byte address LED_CONFIG0 leds ;;
  ret tt.

Definition SetBankBrightness (brightness : Z) (addressType : EAddressType)
  : M unit :=
  address <- getAddress addressType ;;
  i2c_write_byte address BANK_BRIGHTNESS brightness ;;
  ret tt.

Definition SetBankColorA (value : Z) (addressType : EAddressType) : M unit :=
  address <- getAddress addressType ;;
  i2c_write_byte address BANK_A_COLOR value ;;
  ret tt.

Definition SetBankColorB (value : Z) (addressType : EAddressType) : M unit :=
  address <- getAddress addressType ;;
  i2c_write_byte address BANK_B_COLOR value ;;
  ret tt.

Definition SetBankColorC (value : Z) (addressType : EAddressType) : M unit :=
  address <- getAddress addressType ;;
  i2c_write_byte address BANK_C_COLOR value ;;
  ret tt.

Definition SetBankColor (r g b : Z) (addressType : EAddressType) : M unit :=
  SetAutoIncrement AUTO_INC_ON ;;
  led_configuration <- load _led_configuration ;;
  let buff :=
    match led_configuration with
    | RGB => [r; g; b]
    | GRB => [g; r; b]
    | BGR => [b; g; r]
    | RBG => [r; b; g]
    | GBR => [g; b; r]
    | BRG => [b; r; g]
    end in
  address <- getAddress addressType ;;
  i2c_write_multi address BANK_A_COLOR buff 3 ;;
  ret tt.

(** *** Output control functions *)

Definition SetLEDBrightness (led brighness : Z) (addressType : EAddressType)
  : M unit :=
  address <- getAddress addressType ;;
  i2c_write_byte address (LED0_BRIGHTNESS + led) brighness ;;
  ret tt.

Definition SetOutputColor (output value : Z) (addressType : EAddressType)
  : M unit :=
  address <- getAddress addressType ;;
  i2c_write_byte address (OUT0_COLOR + output) value ;;
  ret tt.

Definition SetLEDColor (led r g b : Z) (addressType : EAddressType)
  : M unit :=
  SetAutoIncrement AUTO_INC_ON ;;
  led_configuration <- load _led_configuration ;;
  let buff :=
    match led_configuration with
    | RGB => [r; g; b]
    | GRB => [g; r; b]
    | BGR => [b; g; r]
    | RBG => [r; b; g]
    | GBR => [g; b; r]
    | BRG => [b; r; g]
    end in
  address <- getAddress addressType ;;
  i2c_write_multi address (OUT0_COLOR + (led * 3)) buff 3 ;;
  ret tt.

(** *** Low level functions *)

Definition WriteRegister (reg value : Z) (addressType : EAddressType)
  : M unit :=
  address <- getAddress addressType ;;
  i2c_write_byte address reg value ;;
  ret tt.

(** [ReadRegister] returns nothing; the result here is the byte it leaves
    in [*value]. *)
Definition ReadRegister (reg : Z) : M Z :=
  address <- load _i2c_address ;;
  r <- i2c_read_byte address reg ;;
  ret (snd r).

(** ** The public interface as data *)

(** One constructor per public member function, with its arguments. *)
Inductive Call : Type :=
| CallBegin (i2cAddress : Z)
| CallReset
| CallResetRegisters (addressType : EAddressType)
| CallConfigure (configuration : Z) (addressType : EAddressType)
| CallSetScaling (scaling : Z)
| CallSetPowerSaving (powerSave : Z)
| CallSetAutoIncrement (autoInc : Z)
| CallSetPWMDithering (dithering : Z)
| CallSetMaxCurrentOption (option : Z)
| CallSetGlobalLedOff (value : Z)
| CallSetEnablePin (enablePin : Z)
| CallSetLEDConfiguration (ledConfiguration : LED_Configuration)
| CallSetI2CAddress (address : Z)
| CallSetBankControl (leds : Z) (addressType : EAddressType)
| CallSetBankBrightness (brightness : Z) (addressType : EAddressType)
| CallSetBankColorA (value : Z) (addressType : EAddressType)
| CallSetBankColorB (value : Z) (addressType : EAddressType)
| CallSetBankColorC (value : Z) (addressType : EAddressType)
| CallSetBankColor (r g b : Z) (addressType : EAddressType)
| CallSetLEDBrightness (led brighness : Z) (addressType : EAddressType)
| CallSetOutputColor (output value : Z) (addressType : EAddressType)
| CallSetLEDColor (led r g b : Z) (addressType : EAddressType)
| CallWriteRegister (reg value : Z) (addressType : EAddressType)
| CallReadRegister (reg : Z).

(** What a call hands back to its caller: the [bool] of [Begin], the byte
    [ReadRegister] stores through its pointer argument, or nothing. *)
Inductive Returned : Type :=
| RetBool (b : bool)
| RetByte (v : Z)
| RetVoid.

Definition void (c : M unit) : M Returned := c ;; ret RetVoid.

Definition invoke (c : Call) : M Returned :=
  match c with
  | CallBegin a => b <- Begin a ;; ret (RetBool b)
  | CallReset => void Reset
  | CallResetRegisters k => void (ResetRegisters k)
  | CallConfigure f k => void (Configure f k)
  | CallSetScaling v => void (SetScaling v)
  | CallSetPowerSaving v => void (SetPowerSaving v)
  | CallSetAutoIncrement v => void (SetAutoIncrement v)
  | CallSetPWMDithering v => void (SetPWMDithering v)
  | CallSetMaxCurrentOption v => void (SetMaxCurrentOption v)
  | CallSetGlobalLedOff v => void (SetGlobalLedOff v)
  | CallSetEnablePin p => void (SetEnablePin p)
  | CallSetLEDConfiguration c => void (SetLEDConfiguration c)
  | CallSetI2CAddress a => void (SetI2CAddress a)
  | CallSetBankControl l k => void (SetBankControl l k)
  | CallSetBankBrightness v k => void (SetBankBrightness v k)
  | CallSetBankColorA v k => void (SetBankColorA v k)
  | CallSetBankColorB v k => void (SetBankColorB v k)
  | CallSetBankColorC v k => void (SetBankColorC v k)
  | CallSetBankColor r g b k => void (SetBankColor r g b k)
  | CallSetLEDBrightness l v k => void (SetLEDBrightness l v k)
  | CallSetOutputColor o v k => void (SetOutputColor o v k)
  | CallSetLEDColor l r g b k => void (SetLEDColor l r g b k)
  | CallWriteRegister r v k => void (WriteRegister r v k)
  | CallReadRegister r => v <- ReadRegister r ;; ret (RetByte v)
  end.

(** ** Observations on a run *)

(** The events a computation adds to the log. *)
Definition events_of {A : Type} (c : M A) (t : Transport) (w : World)
  : list Event :=
  skipn (length (log w)) (log (snd (c t w))).

(** The payloads of the burst writes in a list of events. *)
Fixpoint bursts (l : list Event) : list (list Z) :=
  match l with
  | [] => []
  | I2cWriteMulti _ _ buf _ :: l' => buf :: bursts l'
  | _ :: l' => bursts l'
  end.

(** Whether an event is a bus transaction on the given bus address. *)
Definition on_address (a : Z) (e : Event) : bool :=
  match e with
  | I2cWriteByte a' _ _ => a' =? a
  | I2cReadByte a' _ _ => a' =? a
  | I2cWriteMulti a' _ _ _ => a' =? a
  | _ => false
  end.


Definition is_read (e : Event) : bool :=
  match e with
  | I2cReadByte _ _ _ => true
  | _ => false
  end.

(** A driver object with the enable pin set means [_enable_pin != 0xFF]. *)
Definition has_enable_pin (d : LP50XX) : bool := negb (_enable_pin d =? 0xFF).

(** A transport whose reads always deliver [v] and whose transactions
    complete or not as [ok] says. *)
Definition constant_transport (v : Z) (ok : bool) : Transport :=
  {| rx := fun _ _ _ => v; ack := fun _ => ok |}.

(** ** The channel-order table as the specification words it *)

(** [permute order r g b]: RGB gives (r,g,b), GRB gives (g,r,b), BGR gives
    (b,g,r), RBG gives (r,b,g), GBR gives (g,b,r), BRG gives (b,r,g). *)
Definition permute (order : LED_Configuration) (r g b : Z) : Z * Z * Z :=
  match order with
  | RGB => (r, g, b)
  | GRB => (g, r, b)
  | BGR => (b, g, r)
  | RBG => (r, b, g)
  | GBR => (g, b, r)
  | BRG => (b, r, g)
  end.

Definition triple_bytes (p : Z * Z * Z) : list Z :=
  let '(x, y, z) := p in [x; y; z].

(** A driver object that differs from [d] in its channel order only. *)
Definition with_order (order : LED_Configuration) (d : LP50XX) : LP50XX :=
  {| _i2c_address := _i2c_address d;
     _i2c_address_broadcast := _i2c_address_broadcast d;
     _enable_pin := _enable_pin d;
     _led_configuration := order |}.

Definition with_address (a : Z) (d : LP50XX) : LP50XX :=
  {| _i2c_address := a;
     _i2c_address_broadcast := _i2c_address_broadcast d;
     _enable_pin := _enable_pin d;
     _led_configuration := _led_configuration d |}.

(** ** Sample configurations *)

(** A bus on which every transaction completes and every read delivers 0. *)
Definition quiet_bus : Transport := constant_transport 0 true.

(** A bus on which no transaction completes. *)
Definition dead_bus : Transport := constant_transport 0 false.

(** [LP50XX led;] followed by [led.Begin();]. *)
Definition board_without_pin : World :=
  snd (Begin DEFAULT_ADDRESS quiet_bus (construct LP50XX_ctor quiet_bus 0)).

(** [LP50XX led(GRB, 7);] followed by [led.Begin();]. *)
Definition board_with_pin : World :=
  snd (Begin DEFAULT_ADDRESS quiet_bus
         (construct (LP50XX_ctor_cfg_pin GRB 7) quiet_bus 0)).

(** The burst payloads of the two tri-color writes on a driver object whose
    channel order is [order]. *)
Definition bank_bursts (order : LED_Configuration) (r g b : Z)
  (k : EAddressType) (t : Transport) (d : LP50XX) (l : list Event)
  : list (list Z) :=
  bursts (events_of (SetBankColor r g b k) t
            {| dev := with_order order d; log := l |}).

Definition led_bursts (order : LED_Configuration) (led r g b : Z)
  (k : EAddressType) (t : Transport) (d : LP50XX) (l : list Event)
  : list (list Z) :=
  bursts (events_of (SetLEDColor led r g b k) t
            {| dev := with_order order d; log := l |}).

(** ** Predicates used to state the properties *)

(** [written] is a byte that agrees with [old] on every bit but bit [k],
    and whose bit [k] is bit [k] of [input]. *)
Definition only_bit_changed (k input old written : Z) : Prop :=
  is_u8 written /\
  forall i, 0 <= i ->
    Z.testbit written i = if i =? k then Z.testbit input k else Z.testbit old i.

(** On any bus, [setter] reads the configuration register at the primary
    address once, then writes it once at the same address, changing bit [k]
    only. *)
Definition rmw_any_bus (setter : Z -> M unit) (k : Z) : Prop :=
  forall (input : Z) (t : Transport) (w : World),
    let a := _i2c_address (dev w) in
    let old := to_u8 (rx t (log w) a DEVICE_CONFIG1) in
    exists written,
      setter input t w =
        (tt, {| dev := dev w;
                log := log w ++ [I2cReadByte a DEVICE_CONFIG1 old;
                                 I2cWriteByte a DEVICE_CONFIG1 written] |})
      /\ only_bit_changed k input old written.

(** The same for every byte [v] the read may deliver. *)
Definition rmw_any_byte (setter : Z -> M unit) (k : Z) : Prop :=
  forall (input v : Z) (ok : bool) (w : World),
    is_u8 v ->
    exists written,
      events_of (setter input) (constant_transport v ok) w =
        [I2cReadByte (_i2c_address (dev w)) DEVICE_CONFIG1 v;
         I2cWriteByte (_i2c_address (dev w)) DEVICE_CONFIG1 written]
      /\ only_bit_changed k input v written.

Definition rmw_setter (setter : Z -> M unit) (k : Z) : Prop :=
  rmw_any_bus setter k /\ rmw_any_byte setter k.

(** "[Configure] overwrites the register with the caller's flags", read
    to the letter: the byte written is the argument. *)
Definition Configure_writes_flags_verbatim : Prop :=
  forall (flags : Z) (k : EAddressType) (t : Transport) (w : World),
    is_u8 flags ->
    events_of (Configure flags k) t w =
      [I2cWriteByte (getAddress_of (dev w) k) DEVICE_CONFIG1 flags].


(** ** Sequences of calls *)

(** The calls of a program, one after the other on the same object. *)
Fixpoint run_calls (cs : list Call) : M (list Returned) :=
  match cs with
  | [] => ret []
  | c :: cs' =>
      r <- invoke c ;;
      rs <- run_calls cs' ;;
      ret (r :: rs)
  end.

Definition with_pin (p : Z) (d : LP50XX) : LP50XX :=
  {| _i2c_address := _i2c_address d;
     _i2c_address_broadcast := _i2c_address_broadcast d;
     _enable_pin := p;
     _led_configuration := _led_configuration d |}.

(** The members after a call, as the assignments in the bodies give
    them. *)
Definition object_after (c : Call) (d : LP50XX) : LP50XX :=
  match c with
  | CallBegin a => with_address a d
  | CallSetI2CAddress a => with_address a d
  | CallSetEnablePin p => with_pin p d
  | CallSetLEDConfiguration o => with_order o d
  | _ => d
  end.

(** The byte the body shared by the six setters computes from the
    argument [input] and the byte [old] it read, for bit [k]. *)
Definition rmw_write (k input old : Z) : Z :=
  if c_true (Z.land (Z.shiftr (to_u8 (Z.land input (Z.shiftl 1 k))) k) 1)
  then to_u8 (Z.lor old (Z.shiftl 1 k))
  else to_u8 (Z.land old (Z.lnot (Z.shiftl 1 k))).

(** The events of each call, listed. *)
Definition call_events (c : Call) (t : Transport) (w : World) : list Event :=
  let d := dev w in
  let a := _i2c_address d in
  let pin := _enable_pin d in
  let old := to_u8 (rx t (log w) a DEVICE_CONFIG1) in
  let rmw k v :=
    [I2cReadByte a DEVICE_CONFIG1 old;
     I2cWriteByte a DEVICE_CONFIG1 (rmw_write k v old)] in
  let write k reg v := [I2cWriteByte (getAddress_of d k) reg v] in
  let force_auto_increment :=
    [I2cReadByte a DEVICE_CONFIG1 old;
     I2cWriteByte a DEVICE_CONFIG1 (Z.lor old 0x08)] in
  let payload r g b := triple_bytes (permute (_led_configuration d) r g b) in
  match c with
  | CallBegin address =>
      [I2cInit; StoreI2cAddress address] ++
      (if has_enable_pin d then [DigitalWrite pin HIGH] else []) ++
      [DelayMicroseconds 500; I2cWriteByte address DEVICE_CONFIG0 0x40]
  | CallReset =>
      (if has_enable_pin d
       then [DigitalWrite pin LOW; Delay 10;
             DigitalWrite pin HIGH; DelayMicroseconds 500]
       else []) ++
      [I2cWriteByte a RESET_REGISTERS 0xFF; I2cWriteByte a DEVICE_CONFIG0 0x40]
  | CallResetRegisters k => write k RESET_REGISTERS 0xFF
  | CallConfigure f k => write k DEVICE_CONFIG1 (Z.land f 0x3F)
  | CallSetScaling v => rmw 5 v
  | CallSetPowerSaving v => rmw 4 v
  | CallSetAutoIncrement v => rmw 3 v
  | CallSetPWMDithering v => rmw 2 v
  | CallSetMaxCurrentOption v => rmw 1 v
  | CallSetGlobalLedOff v => rmw 0 v
  | CallSetEnablePin p => [PinMode p OUTPUT; StoreEnablePin p]
  | CallSetLEDConfiguration o => [StoreLedConfiguration o]
  | CallSetI2CAddress x => [StoreI2cAddress x]
  | CallSetBankControl l k => write k LED_CONFIG0 l
  | CallSetBankBrightness v k => write k BANK_BRIGHTNESS v
  | CallSetBankColorA v k => write k BANK_A_COLOR v
  | CallSetBankColorB v k => write k BANK_B_COLOR v
  | CallSetBankColorC v k => write k BANK_C_COLOR v
  | CallSetBankColor r g b k =>
      force_auto_increment ++
      [I2cWriteMulti (getAddress_of d k) BANK_A_COLOR (payload r g b) 3]
  | CallSetLEDBrightness l v k => write k (LED0_BRIGHTNESS + l) v
  | CallSetOutputColor o v k => write k (OUT0_COLOR + o) v
  | CallSetLEDColor l r g b k =>
      force_auto_increment ++
      [I2cWriteMulti (getAddress_of d k) (OUT0_COLOR + l * 3) (payload r g b)
         3]
  | CallWriteRegister reg v k => write k reg v
  | CallReadRegister reg => [I2cReadByte a reg (to_u8 (rx t (log w) a reg))]
  end.

(** The four constructors and their arguments. *)
Inductive Constructor : Type :=
| NewDefault
| NewWithOrder (ledConfiguration : LED_Configuration)
| NewWithPin (enablePin : Z)
| NewWithOrderAndPin (ledConfiguration : LED_Configuration) (enablePin : Z).

Definition constructor_body (k : Constructor) : M unit :=
  match k with
  | NewDefault => LP50XX_ctor
  | NewWithOrder o => LP50XX_ctor_cfg o
  | NewWithPin p => LP50XX_ctor_pin p
  | NewWithOrderAndPin o p => LP50XX_ctor_cfg_pin o p
  end.

Definition new_object (k : Constructor) (t : Transport) (indeterminate : Z)
  : World :=
  construct (constructor_body k) t indeterminate.

(** The calls that assign [_i2c_address]. *)
Definition sets_address (c : Call) : bool :=
  match c with
  | CallBegin _ | CallSetI2CAddress _ => true
  | _ => false
  end.

(** ** Measures on the log *)

Definition is_transfer (e : Event) : bool :=
  match e with
  | I2cWriteByte _ _ _ | I2cReadByte _ _ _ | I2cWriteMulti _ _ _ _ => true
  | _ => false
  end.

Definition is_pin_event (e : Event) : bool :=
  match e with
  | PinMode _ _ | DigitalWrite _ _ => true
  | _ => false
  end.

(** Microseconds the caller is held by an event. *)
Definition blocked_micros (e : Event) : Z :=
  match e with
  | DelayMicroseconds us => us
  | Delay ms => 1000 * ms
  | _ => 0
  end.

Definition blocking_time (l : list Event) : Z :=
  fold_right (fun e acc => blocked_micros e + acc) 0 l.

(** ** The configuration options *)

Inductive ConfigBit : Type :=
| LogScale
| PowerSave
| AutoInc
| PwmDithering
| MaxCurrent
| GlobalOff.

Definition bit_of (c : ConfigBit) : Z :=
  match c with
  | LogScale => 5
  | PowerSave => 4
  | AutoInc => 3
  | PwmDithering => 2
  | MaxCurrent => 1
  | GlobalOff => 0
  end.

Definition setter_of (c : ConfigBit) : Z -> M unit :=
  match c with
  | LogScale => SetScaling
  | PowerSave => SetPowerSaving
  | AutoInc => SetAutoIncrement
  | PwmDithering => SetPWMDithering
  | MaxCurrent => SetMaxCurrentOption
  | GlobalOff => SetGlobalLedOff
  end.

(** The enumerators of [LP50XX_Configuration]. *)
Definition configuration_options : list Z :=
  [LED_GLOBAL_ON; LED_GLOBAL_OFF; MAX_CURRENT_25mA; MAX_CURRENT_35mA;
   PWM_DITHERING_OFF; PWM_DITHERING_ON; AUTO_INC_OFF; AUTO_INC_ON;
   POWER_SAVE_OFF; POWER_SAVE_ON; LOG_SCALE_OFF; LOG_SCALE_ON].

(** [a | b | ...] *)
Definition bitwise_or (l : list Z) : Z := fold_right Z.lor 0 l.

(** ** A device that stores what it is sent *)

(** A test double for the bus: a register file per bus address.  A byte
    write stores its byte; a burst stores its bytes in consecutive
    registers from its first register on; a read delivers what is stored.
    Nothing else happens on it (no reset, no broadcast fan-out). *)
Definition apply_event (regs : Z -> Z -> Z) (e : Event) : Z -> Z -> Z :=
  match e with
  | I2cWriteByte a r v =>
      fun a' r' => if (a' =? a) && (r' =? r) then to_u8 v else regs a' r'
  | I2cWriteMulti a r buf n =>
      fun a' r' =>
        if (a' =? a) && (r <=? r') && (r' <? r + n)
        then to_u8 (nth (Z.to_nat (r' - r)) buf 0)
        else regs a' r'
  | _ => regs
  end.

Definition register_file (init : Z -> Z -> Z) (h : list Event)
  : Z -> Z -> Z :=
  fold_left apply_event h init.

Definition loopback (init : Z -> Z -> Z) (ackf : list Event -> bool)
  : Transport :=
  {| rx := register_file init; ack := ackf |}.

(** What a read of register [r] at address [a] would deliver now. *)
Definition contents (init : Z -> Z -> Z) (w : World) (a r : Z) : Z :=
  to_u8 (register_file init (log w) a r).

(** The world after a computation. *)
Definition after {A : Type} (c : M A) (t : Transport) (w : World) : World :=
  snd (c t w).

(** * Properties *)

(** ** Lists and bytes *)

Lemma skipn_length_app {A : Type} (l x : list A) :
  skipn (length l) (l ++ x) = x.
Proof.
  induction l as [|a l IH]; simpl; auto.
Qed.

Lemma events_of_log {A : Type} (c : M A) t w a d x :
  c t w = (a, {| dev := d; log := log w ++ x |}) ->
  events_of c t w = x.
Proof.
  intros E. unfold events_of. rewrite E. simpl. apply skipn_length_app.
Qed.

Lemma to_u8_range x : is_u8 (to_u8 x).
Proof.
  unfold is_u8, to_u8. apply Z.mod_pos_bound. lia.
Qed.

Lemma to_u8_testbit x i :
  Z.testbit (to_u8 x) i = (i <? 8) && Z.testbit x i.
Proof.
  unfold to_u8. change 256 with (2 ^ 8).
  apply Z.testbit_mod_pow2. lia.
Qed.

Lemma to_u8_small x : is_u8 x -> to_u8 x = x.
Proof.
  unfold is_u8, to_u8. intros H. apply Z.mod_small. exact H.
Qed.

Lemma u8_high_bits x i : is_u8 x -> 8 <= i -> Z.testbit x i = false.
Proof.
  intros Hx Hi. rewrite <- (to_u8_small x Hx), to_u8_testbit.
  destruct (Z.ltb_spec i 8); [lia | reflexivity].
Qed.

Lemma bit_of_one_shifted k i :
  0 <= k -> 0 <= i -> Z.testbit (Z.shiftl 1 k) i = (i =? k).
Proof.
  intros Hk Hi. rewrite Z.shiftl_1_l, Z.pow2_bits_eqb by lia.
  apply Z.eqb_sym.
Qed.

Lemma c_true_land_1 y : c_true (Z.land y 1) = Z.testbit y 0.
Proof.
  unfold c_true. change 1 with (Z.ones 1) at 1.
  rewrite Z.land_ones by lia. change (2 ^ 1) with 2.
  rewrite <- Z.bit0_mod. destruct (Z.testbit y 0); reflexivity.
Qed.

Create HintDb u8 discriminated.
#[local] Hint Resolve to_u8_range : u8.

Section OneBit.

(** The position of a bit inside a byte. *)
Variable k : Z.
Hypothesis k_in_byte : 0 <= k < 8.

(** The test [x >> k & 1] on [x = (uint8_t)(input & 1 << k)] is bit [k]
    of [input]. *)
Lemma masked_bit_test input :
  c_true (Z.land (Z.shiftr (to_u8 (Z.land input (Z.shiftl 1 k))) k) 1)
  = Z.testbit input k.
Proof.
  rewrite c_true_land_1, Z.shiftr_spec by lia.
  rewrite Z.add_0_l, to_u8_testbit, Z.land_spec, bit_of_one_shifted by lia.
  rewrite Z.eqb_refl, andb_true_r.
  destruct (Z.ltb_spec k 8); [reflexivity | lia].
Qed.

(** [buff |= 1 << k] on a byte. *)
Lemma set_bit_spec old i :
  is_u8 old -> 0 <= i ->
  Z.testbit (to_u8 (Z.lor old (Z.shiftl 1 k))) i
  = if i =? k then true else Z.testbit old i.
Proof.
  intros Ho Hi.
  rewrite to_u8_testbit, Z.lor_spec, bit_of_one_shifted by lia.
  destruct (Z.eqb_spec i k) as [->|Hne].
  - rewrite orb_true_r. destruct (Z.ltb_spec k 8); [reflexivity | lia].
  - rewrite orb_false_r. destruct (Z.ltb_spec i 8); [reflexivity|].
    symmetry. now apply u8_high_bits.
Qed.

(** [buff &= ~(1 << k)] on a byte. *)
Lemma clear_bit_spec old i :
  is_u8 old -> 0 <= i ->
  Z.testbit (to_u8 (Z.land old (Z.lnot (Z.shiftl 1 k)))) i
  = if i =? k then false else Z.testbit old i.
Proof.
  intros Ho Hi.
  rewrite to_u8_testbit, Z.land_spec, Z.lnot_spec, bit_of_one_shifted
    by lia.
  destruct (Z.eqb_spec i k) as [->|Hne]; cbn [negb].
  - now rewrite andb_false_r, andb_false_r.
  - rewrite andb_true_r. destruct (Z.ltb_spec i 8); [reflexivity|].
    symmetry. now apply u8_high_bits.
Qed.

(** The body shared by the six setters changes bit [k] and nothing
    else. *)
Lemma rmw_body_spec input old :
  is_u8 old ->
  only_bit_changed k input old
    (if c_true (Z.land (Z.shiftr (to_u8 (Z.land input (Z.shiftl 1 k))) k) 1)
     then to_u8 (Z.lor old (Z.shiftl 1 k))
     else to_u8 (Z.land old (Z.lnot (Z.shiftl 1 k)))).
Proof.
  intros Ho. rewrite masked_bit_test.
  split.
  - destruct (Z.testbit input k); auto with u8.
  - intros i Hi. destruct (Z.testbit input k).
    + now apply set_bit_spec.
    + now apply clear_bit_spec.
Qed.

(** A byte is determined by its bits, so [only_bit_changed] names one
    byte. *)
Lemma only_bit_changed_unique input old x y :
  only_bit_changed k input old x -> only_bit_changed k input old y -> x = y.
Proof.
  intros [_ Hx] [_ Hy]. apply Z.bits_inj'. intros i Hi.
  now rewrite Hx, Hy.
Qed.

End OneBit.

Lemma lor_u8 a b : is_u8 a -> is_u8 b -> to_u8 (Z.lor a b) = Z.lor a b.
Proof.
  intros Ha Hb. apply Z.bits_inj'. intros i Hi.
  rewrite to_u8_testbit, Z.lor_spec.
  destruct (Z.ltb_spec i 8); [reflexivity|].
  now rewrite (u8_high_bits a i), (u8_high_bits b i).
Qed.

(** ** What each member function does to the world *)

Ltac run_prims :=
  cbv [bind ret emit load acked received update when void
       store_i2c_address store_enable_pin store_led_configuration
       i2c_init i2c_write_byte i2c_read_byte i2c_write_multi
       pinMode digitalWrite delayMicroseconds delay getAddress];
  cbn [negb dev log fst snd _i2c_address _i2c_address_broadcast _enable_pin
       _led_configuration].

Ltac tidy_log := rewrite <- ?app_assoc; cbn [app].

Ltac run_straight f := unfold f; run_prims; tidy_log; reflexivity.

Lemma getAddress_run k t w :
  getAddress k t w = (getAddress_of (dev w) k, w).
Proof. reflexivity. Qed.

Lemma Begin_run a t w :
  Begin a t w =
  (true,
   {| dev := with_address a (dev w);
      log := log w ++
        [I2cInit; StoreI2cAddress a] ++
        (if has_enable_pin (dev w)
         then [DigitalWrite (_enable_pin (dev w)) HIGH] else []) ++
        [DelayMicroseconds 500; I2cWriteByte a DEVICE_CONFIG0 0x40] |}).
Proof.
  unfold Begin, has_enable_pin. run_prims.
  destruct (_enable_pin (dev w) =? 255); run_prims; tidy_log; reflexivity.
Qed.

Lemma ResetRegisters_run k t w :
  ResetRegisters k t w =
  (tt, {| dev := dev w;
          log := log w ++
            [I2cWriteByte (getAddress_of (dev w) k) RESET_REGISTERS 0xFF] |}).
Proof. run_straight ResetRegisters. Qed.

Lemma Reset_run t w :
  Reset t w =
  (tt,
   {| dev := dev w;
      log := log w ++
        (if has_enable_pin (dev w)
         then [DigitalWrite (_enable_pin (dev w)) LOW; Delay 10;
               DigitalWrite (_enable_pin (dev w)) HIGH; DelayMicroseconds 500]
         else []) ++
        [I2cWriteByte (_i2c_address (dev w)) RESET_REGISTERS 0xFF;
         I2cWriteByte (_i2c_address (dev w)) DEVICE_CONFIG0 0x40] |}).
Proof.
  unfold Reset, ResetRegisters, has_enable_pin. run_prims.
  destruct (_enable_pin (dev w) =? 255); run_prims; tidy_log; reflexivity.
Qed.

Lemma Configure_run f k t w :
  Configure f k t w =
  (tt, {| dev := dev w;
          log := log w ++
            [I2cWriteByte (getAddress_of (dev w) k) DEVICE_CONFIG1
               (Z.land f 0x3F)] |}).
Proof. run_straight Configure. Qed.

(** The six setters: one read, one write, one bit. *)
Ltac run_setter f k :=
  intros input t w a old;
  eexists; split;
  [ unfold f; run_prims; tidy_log; reflexivity
  | apply (rmw_body_spec k); [lia | apply to_u8_range] ].

Lemma SetScaling_run : rmw_any_bus SetScaling 5.
Proof. run_setter SetScaling 5. Qed.

Lemma SetPowerSaving_run : rmw_any_bus SetPowerSaving 4.
Proof. run_setter SetPowerSaving 4. Qed.

Lemma SetAutoIncrement_run : rmw_any_bus SetAutoIncrement 3.
Proof. run_setter SetAutoIncrement 3. Qed.

Lemma SetPWMDithering_run : rmw_any_bus SetPWMDithering 2.
Proof. run_setter SetPWMDithering 2. Qed.

Lemma SetMaxCurrentOption_run : rmw_any_bus SetMaxCurrentOption 1.
Proof. run_setter SetMaxCurrentOption 1. Qed.

Lemma SetGlobalLedOff_run : rmw_any_bus SetGlobalLedOff 0.
Proof. run_setter SetGlobalLedOff 0. Qed.

(** Forcing auto-increment on: the write is the byte read with bit 3 set. *)
Lemma SetAutoIncrement_on_run t w :
  let a := _i2c_address (dev w) in
  let old := to_u8 (rx t (log w) a DEVICE_CONFIG1) in
  SetAutoIncrement AUTO_INC_ON t w =
  (tt, {| dev := dev w;
          log := log w ++ [I2cReadByte a DEVICE_CONFIG1 old;
                           I2cWriteByte a DEVICE_CONFIG1 (Z.lor old 8)] |}).
Proof.
  intros a old. unfold SetAutoIncrement. run_prims. tidy_log.
  fold a. fold old.
  change (c_true _) with true. cbv iota.
  change (Z.shiftl 1 3) with 8.
  rewrite lor_u8; [reflexivity | apply to_u8_range | unfold is_u8; lia].
Qed.

Lemma SetBankColor_run r g b k t w :
  let a := _i2c_address (dev w) in
  let old := to_u8 (rx t (log w) a DEVICE_CONFIG1) in
  SetBankColor r g b k t w =
  (tt, {| dev := dev w;
          log := log w ++
            [I2cReadByte a DEVICE_CONFIG1 old;
             I2cWriteByte a DEVICE_CONFIG1 (Z.lor old 8);
             I2cWriteMulti (getAddress_of (dev w) k) BANK_A_COLOR
               (triple_bytes (permute (_led_configuration (dev w)) r g b))
               3] |}).
Proof.
  intros a old. unfold SetBankColor.
  unfold bind at 1. rewrite SetAutoIncrement_on_run.
  run_prims. tidy_log.
  destruct (_led_configuration (dev w)); reflexivity.
Qed.

Lemma SetLEDColor_run led r g b k t w :
  let a := _i2c_address (dev w) in
  let old := to_u8 (rx t (log w) a DEVICE_CONFIG1) in
  SetLEDColor led r g b k t w =
  (tt, {| dev := dev w;
          log := log w ++
            [I2cReadByte a DEVICE_CONFIG1 old;
             I2cWriteByte a DEVICE_CONFIG1 (Z.lor old 8);
             I2cWriteMulti (getAddress_of (dev w) k) (OUT0_COLOR + led * 3)
               (triple_bytes (permute (_led_configuration (dev w)) r g b))
               3] |}).
Proof.
  intros a old. unfold SetLEDColor.
  unfold bind at 1. rewrite SetAutoIncrement_on_run.
  run_prims. tidy_log.
  destruct (_led_configuration (dev w)); reflexivity.
Qed.

Lemma SetLEDBrightness_run led v k t w :
  SetLEDBrightness led v k t w =
  (tt, {| dev := dev w;
          log := log w ++
            [I2cWriteByte (getAddress_of (dev w) k) (LED0_BRIGHTNESS + led)
               v] |}).
Proof. run_straight SetLEDBrightness. Qed.

Lemma SetOutputColor_run output v k t w :
  SetOutputColor output v k t w =
  (tt, {| dev := dev w;
          log := log w ++
            [I2cWriteByte (getAddress_of (dev w) k) (OUT0_COLOR + output)
               v] |}).
Proof. run_straight SetOutputColor. Qed.

(** ** Concrete runs *)

Example Begin_on_a_dead_bus :
  Begin DEFAULT_ADDRESS dead_bus (construct (LP50XX_ctor_pin 7) dead_bus 0x55)
  = (true,
     {| dev := {| _i2c_address := 0x14;
                  _i2c_address_broadcast := 0x0C;
                  _enable_pin := 7;
                  _led_configuration := RGB |};
        log := [PinMode 7 OUTPUT; StoreEnablePin 7;
                I2cInit; StoreI2cAddress 0x14; DigitalWrite 7 HIGH;
                DelayMicroseconds 500; I2cWriteByte 0x14 0x00 0x40] |}).
Proof. reflexivity. Qed.

Example SetLEDColor_to_all_chips :
  events_of (SetLEDColor 2 0x10 0x20 0x30 Broadcast)
    (constant_transport 0x20 true) board_with_pin
  = [I2cReadByte 0x14 0x01 0x20; I2cWriteByte 0x14 0x01 0x28;
     I2cWriteMulti 0x0C 0x15 [0x20; 0x10; 0x30] 3].
Proof. reflexivity. Qed.

Example SetPWMDithering_off :
  events_of (SetPWMDithering PWM_DITHERING_OFF)
    (constant_transport 0x3F true) board_without_pin
  = [I2cReadByte 0x14 0x01 0x3F; I2cWriteByte 0x14 0x01 0x3B].
Proof. reflexivity. Qed.

Example ReadRegister_truncates_to_a_byte :
  fst (ReadRegister BANK_BRIGHTNESS (constant_transport 0x1A5 false)
         board_without_pin) = 0xA5.
Proof. reflexivity. Qed.

(** For the indices the header documents (LED 0..3, output 0..11) every
    register the driver names lies inside the register map 0x00..0x27, so
    it is the same whatever integer type [I2C_coms.h] gives its register
    parameter. *)
Lemma documented_registers_in_map led output :
  0 <= led <= 3 -> 0 <= output <= 11 ->
  LED0_BRIGHTNESS <= LED0_BRIGHTNESS + led <= LED3_BRIGHTNESS
  /\ OUT0_COLOR <= OUT0_COLOR + output <= OUT11_COLOR
  /\ OUT0_COLOR <= OUT0_COLOR + led * 3
  /\ OUT0_COLOR + led * 3 + 2 <= OUT11_COLOR
  /\ OUT11_COLOR < RESET_REGISTERS /\ is_u8 RESET_REGISTERS.
Proof.
  unfold LED0_BRIGHTNESS, LED3_BRIGHTNESS, OUT0_COLOR, OUT11_COLOR,
    RESET_REGISTERS, is_u8.
  lia.
Qed.

(** ** Channel order *)

Lemma bank_bursts_permute order r g b k t d l :
  bank_bursts order r g b k t d l = [triple_bytes (permute order r g b)].
Proof.
  unfold bank_bursts.
  erewrite events_of_log by apply SetBankColor_run. reflexivity.
Qed.

Lemma led_bursts_permute order led r g b k t d l :
  led_bursts order led r g b k t d l = [triple_bytes (permute order r g b)].
Proof.
  unfold led_bursts.
  erewrite events_of_log by apply SetLEDColor_run. reflexivity.
Qed.

(** C1.  For each of the six channel orders and every (r, g, b), the one
    burst issued by [SetBankColor] and the one issued by [SetLEDColor]
    carry the documented triple: RGB (r,g,b), GRB (g,r,b), BGR (b,g,r),
    RBG (r,b,g), GBR (g,b,r), BRG (b,r,g).  This is the table [permute];
    with GRB, (0x10, 0x20, 0x30) goes out as (0x20, 0x10, 0x30).  The
    payload does not depend on the bus, on what was logged before, on the
    other members of the object, on the address kind or on the LED index. *)
Theorem channel_order_permutation :
  forall (r g b led : Z) (k : EAddressType) (t : Transport) (d : LP50XX)
         (l : list Event),
    (bank_bursts RGB r g b k t d l = [[r; g; b]] /\
     led_bursts RGB led r g b k t d l = [[r; g; b]])
    /\ (bank_bursts GRB r g b k t d l = [[g; r; b]] /\
        led_bursts GRB led r g b k t d l = [[g; r; b]])
    /\ (bank_bursts BGR r g b k t d l = [[b; g; r]] /\
        led_bursts BGR led r g b k t d l = [[b; g; r]])
    /\ (bank_bursts RBG r g b k t d l = [[r; b; g]] /\
        led_bursts RBG led r g b k t d l = [[r; b; g]])
    /\ (bank_bursts GBR r g b k t d l = [[g; b; r]] /\
        led_bursts GBR led r g b k t d l = [[g; b; r]])
    /\ (bank_bursts BRG r g b k t d l = [[b; r; g]] /\
        led_bursts BRG led r g b k t d l = [[b; r; g]])
    /\ (forall order,
          bank_bursts order r g b k t d l = [triple_bytes (permute order r g b)]
          /\ led_bursts order led r g b k t d l
             = [triple_bytes (permute order r g b)])
    /\ permute GRB 0x10 0x20 0x30 = (0x20, 0x10, 0x30)
    /\ bank_bursts GRB 0x10 0x20 0x30 k t d l = [[0x20; 0x10; 0x30]]
    /\ led_bursts GRB led 0x10 0x20 0x30 k t d l = [[0x20; 0x10; 0x30]].
Proof.
  intros.
  repeat match goal with
         | |- _ /\ _ => split
         | |- forall _, _ => intro
         end;
    try reflexivity;
    try apply bank_bursts_permute; apply led_bursts_permute.
Qed.

(** ** Address resolution *)

(** C2.  [getAddress] returns the primary address for [Normal], the
    broadcast address for [Broadcast], and what it returns for [Normal] for
    any other selector value; it leaves the object and the log as they
    were, and its result depends on the selector and the two stored
    addresses only. *)
Theorem address_resolution :
  forall (t : Transport) (w : World),
    getAddress Normal t w = (_i2c_address (dev w), w)
    /\ getAddress Broadcast t w = (_i2c_address_broadcast (dev w), w)
    /\ (forall k : EAddressType,
          k <> Normal -> k <> Broadcast ->
          getAddress k t w = getAddress Normal t w)
    /\ (forall (k : EAddressType) (t' : Transport) (w' : World),
          _i2c_address (dev w') = _i2c_address (dev w) ->
          _i2c_address_broadcast (dev w') = _i2c_address_broadcast (dev w) ->
          fst (getAddress k t' w') = fst (getAddress k t w))
    /\ (forall k : EAddressType, snd (getAddress k t w) = w).
Proof.
  intros t w. repeat split.
  - intros k _ Hb. rewrite !getAddress_run. unfold getAddress_of.
    destruct (Z.eqb_spec k Broadcast); [contradiction | reflexivity].
  - intros k t' w' Ha Hb. rewrite !getAddress_run. cbn [fst].
    unfold getAddress_of. now rewrite Ha, Hb.
Qed.

Lemma address_resolution_witness :
  getAddress 7 dead_bus board_with_pin = getAddress Normal dead_bus board_with_pin
  /\ fst (getAddress Broadcast quiet_bus board_without_pin)
     = fst (getAddress Broadcast dead_bus board_with_pin).
Proof.
  split.
  - apply (proj1 (proj2 (proj2 (address_resolution dead_bus board_with_pin))));
      discriminate.
  - apply (proj1 (proj2 (proj2 (proj2
             (address_resolution dead_bus board_with_pin)))));
      reflexivity.
Defined.

(** ** Start-up and reset *)

(** C3.  [Begin(address)] initialises the bus, stores [address] as the
    primary address, drives the enable pin high when one is set, waits
    500 microseconds and writes 0x40 to register 0x00 at the address just
    stored, in that order and with nothing else in between; 0x40 has bit 6
    set and no other. *)
Theorem Begin_sequence :
  forall (address : Z) (t : Transport) (w : World),
    Begin address t w =
      (true,
       {| dev := with_address address (dev w);
          log := log w ++
            [I2cInit; StoreI2cAddress address] ++
            (if has_enable_pin (dev w)
             then [DigitalWrite (_enable_pin (dev w)) HIGH] else []) ++
            [DelayMicroseconds 500; I2cWriteByte address 0x00 0x40] |})
    /\ _i2c_address (dev (snd (Begin address t w))) = address
    /\ (forall i : Z, Z.testbit 0x40 i = (i =? 6)).
Proof.
  intros address t w. rewrite Begin_run. repeat split.
  intros i. destruct (Z.ltb_spec i 0) as [Hneg|Hpos].
  - rewrite Z.testbit_neg_r by exact Hneg.
    symmetry. apply Z.eqb_neq. lia.
  - change 0x40 with (Z.shiftl 1 6). now apply bit_of_one_shifted.
Qed.

(** C5.  With an enable pin set, [Reset()] drives the pin low, waits 10 ms,
    drives it high, waits 500 microseconds, writes 0xFF to register 0x27
    and then 0x40 to register 0x00; without one it performs the two writes
    only, in the same order.  Both writes go to the primary address. *)
Theorem Reset_sequence :
  forall (t : Transport) (w : World),
    let pin := _enable_pin (dev w) in
    let a := _i2c_address (dev w) in
    (pin <> 0xFF ->
     Reset t w =
       (tt, {| dev := dev w;
               log := log w ++
                 [DigitalWrite pin LOW; Delay 10;
                  DigitalWrite pin HIGH; DelayMicroseconds 500;
                  I2cWriteByte a 0x27 0xFF;
                  I2cWriteByte a 0x00 0x40] |}))
    /\ (pin = 0xFF ->
        Reset t w =
          (tt, {| dev := dev w;
                  log := log w ++
                    [I2cWriteByte a 0x27 0xFF;
                     I2cWriteByte a 0x00 0x40] |})).
Proof.
  intros t w pin a. rewrite Reset_run. unfold has_enable_pin. fold pin.
  split; intros H.
  - destruct (Z.eqb_spec pin 255); [contradiction | reflexivity].
  - destruct (Z.eqb_spec pin 255); [reflexivity | contradiction].
Qed.

Lemma Reset_sequence_witness :
  events_of Reset dead_bus board_with_pin =
    [DigitalWrite 7 LOW; Delay 10; DigitalWrite 7 HIGH; DelayMicroseconds 500;
     I2cWriteByte 0x14 0x27 0xFF; I2cWriteByte 0x14 0x00 0x40]
  /\ events_of Reset dead_bus board_without_pin =
    [I2cWriteByte 0x14 0x27 0xFF; I2cWriteByte 0x14 0x00 0x40].
Proof.
  split.
  - eapply events_of_log.
    apply (proj1 (Reset_sequence dead_bus board_with_pin)). discriminate.
  - eapply events_of_log.
    apply (proj2 (Reset_sequence dead_bus board_without_pin)). reflexivity.
Defined.

(** ** Failures of the bus *)

Ltac run_call w :=
  cbv [invoke void Begin Reset ResetRegisters Configure SetScaling
       SetPowerSaving SetAutoIncrement SetPWMDithering SetMaxCurrentOption
       SetGlobalLedOff SetEnablePin SetLEDConfiguration SetI2CAddress
       SetBankControl SetBankBrightness SetBankColorA SetBankColorB
       SetBankColorC SetBankColor SetLEDBrightness SetOutputColor SetLEDColor
       WriteRegister ReadRegister];
  run_prims;
  try (destruct (_enable_pin (dev w) =? 255); run_prims);
  try reflexivity.

(** Whether transactions complete has no influence on what a call returns,
    on the object, or on what the driver does next. *)
Lemma invoke_ignores_ack c rxf ack1 ack2 w :
  invoke c {| rx := rxf; ack := ack1 |} w
  = invoke c {| rx := rxf; ack := ack2 |} w.
Proof. destruct c; run_call w. Qed.

Lemma invoke_returns c t w :
  fst (invoke c t w) =
  match c with
  | CallBegin _ => RetBool true
  | CallReadRegister reg =>
      RetByte (to_u8 (rx t (log w) (_i2c_address (dev w)) reg))
  | _ => RetVoid
  end.
Proof. destruct c; run_call w. Qed.

(** C4.  [Begin] returns [true] for every address and whatever the bus
    does, in particular both when its write of 0x40 completes and when it
    does not.  No call hands
    a completion status to its caller: [Begin] returns [true], every other
    member function but [ReadRegister] returns nothing, [ReadRegister]
    yields the byte read, and for every call the result, the object and the
    log are the same on two buses that differ only in which transactions
    complete. *)
Theorem Begin_reports_success :
  (forall (address : Z) (t : Transport) (w : World),
     fst (Begin address t w) = true)
  /\ (forall (address v : Z) (outcome : bool) (w : World),
        fst (i2c_write_byte address DEVICE_CONFIG0 (Z.shiftl 1 6)
               (constant_transport v outcome) w) = outcome
        /\ fst (Begin address (constant_transport v outcome) w) = true)
  /\ (forall (address : Z) (rxf : list Event -> Z -> Z -> Z)
             (ack1 ack2 : list Event -> bool) (w : World),
        Begin address {| rx := rxf; ack := ack1 |} w
        = Begin address {| rx := rxf; ack := ack2 |} w)
  /\ (forall (c : Call) (rxf : list Event -> Z -> Z -> Z)
             (ack1 ack2 : list Event -> bool) (w : World),
        invoke c {| rx := rxf; ack := ack1 |} w
        = invoke c {| rx := rxf; ack := ack2 |} w)
  /\ (forall (c : Call) (t : Transport) (w : World),
        fst (invoke c t w) =
        match c with
        | CallBegin _ => RetBool true
        | CallReadRegister reg =>
            RetByte (to_u8 (rx t (log w) (_i2c_address (dev w)) reg))
        | _ => RetVoid
        end).
Proof.
  split; [| split; [| split; [| split]]].
  - intros. now rewrite Begin_run.
  - intros. now rewrite Begin_run.
  - intros. now rewrite !Begin_run.
  - intros. apply invoke_ignores_ack.
  - intros. apply invoke_returns.
Qed.

(** ** The configuration register *)

Lemma rmw_every_byte setter k : rmw_any_bus setter k -> rmw_any_byte setter k.
Proof.
  intros Hrun input v ok w Hv.
  destruct (Hrun input (constant_transport v ok) w) as [written [E Hbits]].
  cbn [rx constant_transport] in E, Hbits.
  rewrite (to_u8_small v Hv) in E, Hbits.
  exists written. split; [| exact Hbits].
  eapply events_of_log. exact E.
Qed.

(** C6.  Each of the six setters reads register 0x01 at the primary address
    once and then writes it once at the same address; the byte written has
    the setter's bit (5 for [SetScaling], 4 for [SetPowerSaving], 3 for
    [SetAutoIncrement], 2 for [SetPWMDithering], 1 for
    [SetMaxCurrentOption], 0 for [SetGlobalLedOff]) equal to that bit of
    the argument and every other bit as in the byte read, for every
    argument and every byte read.  Reading 0x00,
    [SetAutoIncrement(AUTO_INC_ON)] writes 0x08; reading 0x28,
    [SetAutoIncrement(AUTO_INC_OFF)] writes 0x20. *)
Theorem bitfield_setters_change_one_bit :
  rmw_setter SetScaling 5
  /\ rmw_setter SetPowerSaving 4
  /\ rmw_setter SetAutoIncrement 3
  /\ rmw_setter SetPWMDithering 2
  /\ rmw_setter SetMaxCurrentOption 1
  /\ rmw_setter SetGlobalLedOff 0
  /\ (forall (ok : bool) (w : World),
        events_of (SetAutoIncrement AUTO_INC_ON) (constant_transport 0x00 ok) w
        = [I2cReadByte (_i2c_address (dev w)) 0x01 0x00;
           I2cWriteByte (_i2c_address (dev w)) 0x01 0x08])
  /\ (forall (ok : bool) (w : World),
        events_of (SetAutoIncrement AUTO_INC_OFF) (constant_transport 0x28 ok) w
        = [I2cReadByte (_i2c_address (dev w)) 0x01 0x28;
           I2cWriteByte (_i2c_address (dev w)) 0x01 0x20]).
Proof.
  unfold rmw_setter.
  repeat match goal with |- _ /\ _ => split end;
    try (apply rmw_every_byte).
  1, 2: exact SetScaling_run.
  1, 2: exact SetPowerSaving_run.
  1, 2: exact SetAutoIncrement_run.
  1, 2: exact SetPWMDithering_run.
  1, 2: exact SetMaxCurrentOption_run.
  1, 2: exact SetGlobalLedOff_run.
  - intros ok w. eapply events_of_log.
    unfold SetAutoIncrement. run_prims. tidy_log. reflexivity.
  - intros ok w. eapply events_of_log.
    unfold SetAutoIncrement. run_prims. tidy_log. reflexivity.
Qed.

Lemma bitfield_setters_change_one_bit_witness :
  exists written,
    events_of (SetScaling LOG_SCALE_ON) (constant_transport 0x0A false)
      board_without_pin
    = [I2cReadByte 0x14 0x01 0x0A; I2cWriteByte 0x14 0x01 written]
    /\ Z.testbit written 5 = true
    /\ Z.testbit written 3 = true
    /\ Z.testbit written 2 = false.
Proof.
  assert (Hv : is_u8 0x0A) by (unfold is_u8; lia).
  destruct (proj2 (proj1 bitfield_setters_change_one_bit)
              LOG_SCALE_ON 0x0A false board_without_pin Hv)
    as [written [E [_ Hbits]]].
  exists written. split; [exact E |].
  split; [rewrite (Hbits 5) | split; [rewrite (Hbits 3) | rewrite (Hbits 2)]];
    try reflexivity; lia.
Defined.

(** The mask [0x3F] keeps bits 0 to 5. *)
Lemma low_six_bits flags i :
  Z.testbit (Z.land flags 0x3F) i = (i <? 6) && Z.testbit flags i.
Proof.
  destruct (Z.ltb_spec i 0) as [Hneg|Hpos].
  - rewrite !Z.testbit_neg_r by exact Hneg. now rewrite andb_false_r.
  - rewrite Z.land_spec. change 0x3F with (Z.ones 6).
    rewrite Z.testbit_ones by lia.
    destruct (Z.leb_spec 0 i); [| lia]. cbn [andb]. apply andb_comm.
Qed.

Lemma low_six_bits_small flags : 0 <= flags < 64 -> Z.land flags 0x3F = flags.
Proof.
  intros H. change 0x3F with (Z.ones 6).
  rewrite Z.land_ones by lia. apply Z.mod_small. exact H.
Qed.

(** C8, as worded: refuted.  On a freshly started driver
    [Configure(0xFF)] writes 0x3F to register 0x01, not 0xFF. *)
Lemma Configure_flags_counterexample :
  events_of (Configure 0xFF Normal) quiet_bus board_without_pin
    = [I2cWriteByte 0x14 0x01 0x3F]
  /\ ~ Configure_writes_flags_verbatim.
Proof.
  split; [reflexivity |].
  intros claim.
  assert (H : is_u8 0xFF) by (unfold is_u8; lia).
  specialize (claim 0xFF Normal quiet_bus board_without_pin H).
  vm_compute in claim. discriminate claim.
Qed.

(** C8, amended.  [Configure(flags, addressType)] issues no read and one
    write, to register 0x01 at the resolved address; the byte written is
    [flags & 0x3F]: bits 0 to 5 are those of [flags], bits 6 and 7 are 0.
    It is [flags] itself when [flags] is below 64, which is the case of
    every combination of the six configuration options. *)
Theorem Configure_single_masked_write :
  forall (flags : Z) (k : EAddressType) (t : Transport) (w : World),
    Configure flags k t w =
      (tt, {| dev := dev w;
              log := log w ++
                [I2cWriteByte (fst (getAddress k t w)) 0x01
                   (Z.land flags 0x3F)] |})
    /\ (forall i : Z,
          Z.testbit (Z.land flags 0x3F) i = (i <? 6) && Z.testbit flags i)
    /\ (0 <= flags < 64 ->
        events_of (Configure flags k) t w =
          [I2cWriteByte (fst (getAddress k t w)) 0x01 flags]).
Proof.
  intros flags k t w. rewrite Configure_run, getAddress_run. cbn [fst].
  split; [reflexivity | split].
  - apply low_six_bits.
  - intros H. eapply events_of_log. rewrite Configure_run.
    now rewrite (low_six_bits_small flags H).
Qed.

Lemma Configure_single_masked_write_witness :
  events_of
    (Configure (LED_GLOBAL_ON + MAX_CURRENT_35mA + PWM_DITHERING_ON
                + AUTO_INC_ON + POWER_SAVE_ON + LOG_SCALE_ON) Broadcast)
    dead_bus board_with_pin
  = [I2cWriteByte 0x0C 0x01 0x3E].
Proof.
  apply (proj2 (proj2 (Configure_single_masked_write 0x3E Broadcast dead_bus
                         board_with_pin))).
  lia.
Defined.

(** ** Tri-color writes *)

Lemma set_bit_3 old i :
  Z.testbit (Z.lor old 0x08) i = if i =? 3 then true else Z.testbit old i.
Proof.
  destruct (Z.ltb_spec i 0) as [Hneg|Hpos].
  - rewrite !Z.testbit_neg_r by exact Hneg.
    destruct (Z.eqb_spec i 3); [lia | reflexivity].
  - rewrite Z.lor_spec. change 0x08 with (Z.shiftl 1 3).
    rewrite bit_of_one_shifted by lia.
    destruct (i =? 3); [apply orb_true_r | apply orb_false_r].
Qed.

(** C7.  [SetBankColor] and [SetLEDColor] first do what
    [SetAutoIncrement(AUTO_INC_ON)] does (read register 0x01, write it back
    with bit 3 set and the other bits unchanged) and then issue one burst
    of three bytes, at register 0x04 for the bank and at 0x0F + led * 3 for
    an LED.  The burst holds the three bytes of [permute] for the channel
    order the object has when the call is made, the same for both
    functions. *)
Theorem color_writes_force_auto_increment_then_burst :
  forall (led r g b : Z) (k : EAddressType) (t : Transport) (w : World),
    let a := _i2c_address (dev w) in
    let old := to_u8 (rx t (log w) a 0x01) in
    let payload :=
      triple_bytes (permute (_led_configuration (dev w)) r g b) in
    SetBankColor r g b k t w =
      (tt, {| dev := dev w;
              log := log w ++
                [I2cReadByte a 0x01 old;
                 I2cWriteByte a 0x01 (Z.lor old 0x08);
                 I2cWriteMulti (fst (getAddress k t w)) 0x04 payload 3] |})
    /\ SetLEDColor led r g b k t w =
      (tt, {| dev := dev w;
              log := log w ++
                [I2cReadByte a 0x01 old;
                 I2cWriteByte a 0x01 (Z.lor old 0x08);
                 I2cWriteMulti (fst (getAddress k t w)) (0x0F + led * 3)
                   payload 3] |})
    /\ events_of (SetAutoIncrement AUTO_INC_ON) t w =
         [I2cReadByte a 0x01 old; I2cWriteByte a 0x01 (Z.lor old 0x08)]
    /\ (forall i : Z,
          Z.testbit (Z.lor old 0x08) i
          = if i =? 3 then true else Z.testbit old i)
    /\ length payload = 3%nat
    /\ bursts (events_of (SetBankColor r g b k) t w) = [payload]
    /\ bursts (events_of (SetLEDColor led r g b k) t w) = [payload].
Proof.
  intros led r g b k t w a old payload.
  rewrite SetBankColor_run, SetLEDColor_run, getAddress_run. cbn [fst].
  repeat match goal with |- _ /\ _ => split end.
  - reflexivity.
  - reflexivity.
  - eapply events_of_log. apply SetAutoIncrement_on_run.
  - apply set_bit_3.
  - subst payload. now destruct (_led_configuration (dev w)).
  - erewrite events_of_log by apply SetBankColor_run. reflexivity.
  - erewrite events_of_log by apply SetLEDColor_run. reflexivity.
Qed.




(** ** Single registers *)

(** C9.  [SetLEDBrightness(led, value)] issues one write of [value] to
    register 0x07 + led and [SetOutputColor(output, value)] one write of
    [value] to register 0x0F + output, at the resolved address, for every
    index: nothing checks the index, so that for instance LED index 8
    addresses the register of output 0. *)
Theorem brightness_and_output_single_write :
  forall (index value : Z) (k : EAddressType) (t : Transport) (w : World),
    SetLEDBrightness index value k t w =
      (tt, {| dev := dev w;
              log := log w ++
                [I2cWriteByte (fst (getAddress k t w)) (0x07 + index)
                   value] |})
    /\ SetOutputColor index value k t w =
      (tt, {| dev := dev w;
              log := log w ++
                [I2cWriteByte (fst (getAddress k t w)) (0x0F + index)
                   value] |})
    /\ SetLEDBrightness 8 value k t w = SetOutputColor 0 value k t w
    /\ events_of (SetLEDBrightness 4 value k) t w =
         [I2cWriteByte (fst (getAddress k t w)) 0x0B value]
    /\ events_of (SetOutputColor 12 value k) t w =
         [I2cWriteByte (fst (getAddress k t w)) 0x1B value].
Proof.
  intros index value k t w.
  rewrite !SetLEDBrightness_run, !SetOutputColor_run, getAddress_run.
  cbn [fst].
  repeat match goal with |- _ /\ _ => split end; try reflexivity.
  - eapply events_of_log. apply SetLEDBrightness_run.
  - eapply events_of_log. apply SetOutputColor_run.
Qed.

(** * Further properties of the driver *)

(** ** Every call, listed *)

Lemma invoke_run c t w :
  snd (invoke c t w) =
  {| dev := object_after c (dev w); log := log w ++ call_events c t w |}.
Proof.
  destruct c;
    try (unfold invoke, void, bind at 1;
         first [ rewrite SetBankColor_run | rewrite SetLEDColor_run ];
         reflexivity);
    cbv [invoke void Begin Reset ResetRegisters Configure SetScaling
         SetPowerSaving SetAutoIncrement SetPWMDithering SetMaxCurrentOption
         SetGlobalLedOff SetEnablePin SetLEDConfiguration SetI2CAddress
         SetBankControl SetBankBrightness SetBankColorA SetBankColorB
         SetBankColorC SetLEDBrightness SetOutputColor
         WriteRegister ReadRegister call_events has_enable_pin];
    run_prims;
    try (destruct (_enable_pin (dev w) =? 255); run_prims);
    tidy_log; reflexivity.
Qed.

Lemma invoke_events c t w : events_of (invoke c) t w = call_events c t w.
Proof.
  unfold events_of. rewrite invoke_run. cbn [log]. apply skipn_length_app.
Qed.

Lemma invoke_object c t w : dev (snd (invoke c t w)) = object_after c (dev w).
Proof. now rewrite invoke_run. Qed.

Lemma invoke_log c t w :
  log (snd (invoke c t w)) = log w ++ call_events c t w.
Proof. now rewrite invoke_run. Qed.

Lemma after_bind {A B : Type} (c : M A) (k : M B) t w :
  after (c ;; k) t w = after k t (after c t w).
Proof.
  unfold after, bind. destruct (c t w) as [x w']. reflexivity.
Qed.

Lemma run_calls_cons c cs t w :
  after (run_calls (c :: cs)) t w = after (run_calls cs) t (after (invoke c) t w).
Proof.
  unfold after. cbn [run_calls]. unfold bind at 1.
  destruct (invoke c t w) as [x w1]. unfold bind. cbn [snd].
  destruct (run_calls cs t w1) as [xs w2]. reflexivity.
Qed.

Lemma rmw_write_bits k input old i :
  0 <= k < 8 -> is_u8 old ->
  Z.testbit (rmw_write k input old) i
  = if i =? k then Z.testbit input k else Z.testbit old i.
Proof.
  intros Hk Ho. destruct (Z.ltb_spec i 0) as [Hneg|Hpos].
  - rewrite (Z.testbit_neg_r _ i), (Z.testbit_neg_r old i) by exact Hneg.
    destruct (Z.eqb_spec i k); [lia | reflexivity].
  - now apply (rmw_body_spec k Hk input old Ho).
Qed.

Lemma rmw_write_u8 k input old :
  0 <= k < 8 -> is_u8 old -> is_u8 (rmw_write k input old).
Proof.
  intros Hk Ho. now apply (rmw_body_spec k Hk input old Ho).
Qed.

Lemma bit_of_range c : 0 <= bit_of c < 8.
Proof. destruct c; cbn; lia. Qed.

Lemma setter_of_run c input t w :
  setter_of c input t w =
  (tt, {| dev := dev w;
          log := log w ++
            [I2cReadByte (_i2c_address (dev w)) DEVICE_CONFIG1
               (to_u8 (rx t (log w) (_i2c_address (dev w)) DEVICE_CONFIG1));
             I2cWriteByte (_i2c_address (dev w)) DEVICE_CONFIG1
               (rmw_write (bit_of c) input
                  (to_u8 (rx t (log w) (_i2c_address (dev w))
                            DEVICE_CONFIG1)))] |}).
Proof.
  destruct c;
    cbv [setter_of SetScaling SetPowerSaving SetAutoIncrement SetPWMDithering
         SetMaxCurrentOption SetGlobalLedOff];
    run_prims; tidy_log; reflexivity.
Qed.

(** ** The argument of a setter *)

Lemma rmw_write_own_bit k input input' old :
  0 <= k < 8 ->
  Z.testbit input k = Z.testbit input' k ->
  rmw_write k input old = rmw_write k input' old.
Proof.
  intros Hk H. unfold rmw_write. now rewrite !masked_bit_test, H.
Qed.

(** X1.  A setter looks at one bit of its argument: two arguments that
    agree on that bit give the same bus transactions and the same result.
    So the argument is a mask, not a truth value: 1 acts as the OFF
    constant for the five setters whose bit is not bit 0. *)
Theorem setter_reads_only_its_bit :
  forall (c : ConfigBit) (input input' : Z) (t : Transport) (w : World),
    (Z.testbit input (bit_of c) = Z.testbit input' (bit_of c) ->
     setter_of c input t w = setter_of c input' t w)
    /\ (c <> GlobalOff -> setter_of c 1 t w = setter_of c 0 t w).
Proof.
  intros c input input' t w. split.
  - intros H. rewrite !setter_of_run.
    now rewrite (rmw_write_own_bit (bit_of c) input input')
      by (apply bit_of_range || exact H).
  - intros Hc. rewrite !setter_of_run.
    rewrite (rmw_write_own_bit (bit_of c) 1 0);
      [reflexivity | apply bit_of_range |].
    destruct c; try reflexivity. contradiction.
Qed.

Lemma setter_reads_only_its_bit_witness :
  SetPowerSaving 1 quiet_bus board_without_pin
  = SetPowerSaving POWER_SAVE_OFF quiet_bus board_without_pin
  /\ SetScaling 0xFF quiet_bus board_without_pin
     = SetScaling LOG_SCALE_ON quiet_bus board_without_pin.
Proof.
  split.
  - apply (proj2 (setter_reads_only_its_bit PowerSave 0 0 quiet_bus
                    board_without_pin)).
    discriminate.
  - apply (proj1 (setter_reads_only_its_bit LogScale 0xFF LOG_SCALE_ON
                    quiet_bus board_without_pin)).
    reflexivity.
Defined.

(** ** Configurations built from the enumerators *)

Lemma option_fits o : In o configuration_options -> Z.land o 0x3F = o.
Proof.
  unfold configuration_options. cbn [In].
  intros H.
  repeat (destruct H as [<-|H]; [reflexivity|]). contradiction.
Qed.

Lemma bitwise_or_fits opts :
  Forall (fun o => In o configuration_options) opts ->
  Z.land (bitwise_or opts) 0x3F = bitwise_or opts.
Proof.
  induction 1 as [|o opts Ho _ IH]; [reflexivity|].
  cbn [bitwise_or fold_right]. fold (bitwise_or opts).
  now rewrite Z.land_lor_distr_l, IH, option_fits.
Qed.

(** X2.  A configuration made by or-ing enumerators of
    [LP50XX_Configuration], as the header asks for, is below 64, and
    [Configure] writes it as it is. *)
Theorem Configure_passes_documented_options :
  forall (opts : list Z) (k : EAddressType) (t : Transport) (w : World),
    Forall (fun o => In o configuration_options) opts ->
    events_of (Configure (bitwise_or opts) k) t w =
      [I2cWriteByte (fst (getAddress k t w)) DEVICE_CONFIG1 (bitwise_or opts)]
    /\ 0 <= bitwise_or opts < 64.
Proof.
  intros opts k t w H. pose proof (bitwise_or_fits opts H) as E. split.
  - eapply events_of_log. rewrite Configure_run, E. reflexivity.
  - rewrite <- E. change 0x3F with (Z.ones 6).
    rewrite Z.land_ones by lia. apply Z.mod_pos_bound. lia.
Qed.

Lemma Configure_passes_documented_options_witness :
  events_of
    (Configure (bitwise_or [LED_GLOBAL_ON; MAX_CURRENT_25mA; PWM_DITHERING_ON;
                            AUTO_INC_ON; POWER_SAVE_ON; LOG_SCALE_ON]) Normal)
    quiet_bus board_without_pin
  = [I2cWriteByte 0x14 0x01 0x3C].
Proof.
  apply (Configure_passes_documented_options
           [LED_GLOBAL_ON; MAX_CURRENT_25mA; PWM_DITHERING_ON;
            AUTO_INC_ON; POWER_SAVE_ON; LOG_SCALE_ON]
           Normal quiet_bus board_without_pin).
  repeat constructor; cbn; tauto.
Defined.

(** ** The driver object over a whole program *)

Lemma run_calls_object cs : forall t w,
  dev (after (run_calls cs) t w)
  = fold_left (fun d c => object_after c d) cs (dev w).
Proof.
  induction cs as [|c cs IH]; intros t w; [reflexivity|].
  rewrite run_calls_cons, IH. unfold after at 1. rewrite invoke_object.
  reflexivity.
Qed.

Lemma object_after_broadcast c d :
  _i2c_address_broadcast (object_after c d) = _i2c_address_broadcast d.
Proof. destruct c; reflexivity. Qed.

Lemma new_object_members k t x :
  _i2c_address (dev (new_object k t x)) = x
  /\ _i2c_address_broadcast (dev (new_object k t x)) = BROADCAST_ADDRESS.
Proof. destruct k; split; reflexivity. Qed.

(** X3.  What the bus delivers, and whether its transactions complete,
    never reaches the driver object: after any sequence of calls the
    members are those obtained by replaying the assignments of [Begin],
    [SetI2CAddress], [SetEnablePin] and [SetLEDConfiguration] in order, the
    same on every bus and whatever was logged before. *)
Theorem object_state_ignores_the_bus :
  forall (cs : list Call) (t t' : Transport) (w w' : World),
    dev (after (run_calls cs) t w)
    = fold_left (fun d c => object_after c d) cs (dev w)
    /\ (dev w = dev w' ->
        dev (after (run_calls cs) t w) = dev (after (run_calls cs) t' w')).
Proof.
  intros cs t t' w w'. split.
  - apply run_calls_object.
  - intros E. now rewrite !run_calls_object, E.
Qed.

Lemma object_state_ignores_the_bus_witness :
  dev (after (run_calls [CallSetScaling LOG_SCALE_ON; CallBegin 0x15;
                         CallReadRegister 0x01; CallSetEnablePin 4])
         quiet_bus board_with_pin)
  = dev (after (run_calls [CallSetScaling LOG_SCALE_ON; CallBegin 0x15;
                           CallReadRegister 0x01; CallSetEnablePin 4])
           (constant_transport 0xFF false)
           {| dev := dev board_with_pin; log := [] |}).
Proof.
  apply (proj2 (object_state_ignores_the_bus
                  [CallSetScaling LOG_SCALE_ON; CallBegin 0x15;
                   CallReadRegister 0x01; CallSetEnablePin 4]
                  quiet_bus (constant_transport 0xFF false) board_with_pin
                  {| dev := dev board_with_pin; log := [] |})).
  reflexivity.
Defined.

(** X4.  No member function assigns [_i2c_address_broadcast]: on an object
    made by any of the four constructors it is 0x0C after every sequence of
    calls, so [Broadcast] always resolves to 0x0C. *)
Theorem broadcast_address_is_fixed :
  forall (k : Constructor) (indeterminate : Z) (t : Transport)
         (cs : list Call),
    let w := after (run_calls cs) t (new_object k t indeterminate) in
    _i2c_address_broadcast (dev w) = BROADCAST_ADDRESS
    /\ fst (getAddress Broadcast t w) = 0x0C.
Proof.
  intros k x t cs w.
  assert (E : _i2c_address_broadcast (dev w) = BROADCAST_ADDRESS).
  { subst w. rewrite run_calls_object.
    generalize (proj2 (new_object_members k t x)).
    generalize (dev (new_object k t x)).
    induction cs as [|c cs IH]; intros d Hd; cbn [fold_left]; [exact Hd|].
    apply IH. now rewrite object_after_broadcast. }
  split; [exact E|]. rewrite getAddress_run. cbn [fst].
  unfold getAddress_of. cbn. exact E.
Qed.

Lemma untouched_address cs : forall d,
  forallb (fun c => negb (sets_address c)) cs = true ->
  _i2c_address (fold_left (fun d c => object_after c d) cs d) = _i2c_address d.
Proof.
  induction cs as [|c cs IH]; intros d H; [reflexivity|].
  cbn [forallb] in H. apply andb_prop in H. destruct H as [Hc Hcs].
  cbn [fold_left]. rewrite IH by exact Hcs.
  destruct c; try reflexivity; discriminate Hc.
Qed.

(** X5.  No constructor assigns [_i2c_address], and 0x14 is only the
    default argument of [Begin]: as long as neither [Begin] nor
    [SetI2CAddress] has been called, the primary address is whatever the
    uninitialised member holds, and that is where unicast transactions
    go. *)
Theorem address_unset_until_begin :
  forall (k : Constructor) (indeterminate : Z) (t : Transport)
         (cs : list Call),
    forallb (fun c => negb (sets_address c)) cs = true ->
    let w := after (run_calls cs) t (new_object k t indeterminate) in
    _i2c_address (dev w) = indeterminate
    /\ fst (getAddress Normal t w) = indeterminate
    /\ events_of (ResetRegisters Normal) t w
       = [I2cWriteByte indeterminate RESET_REGISTERS 0xFF].
Proof.
  intros k x t cs H w.
  assert (E : _i2c_address (dev w) = x).
  { subst w. rewrite run_calls_object, untouched_address by exact H.
    apply new_object_members. }
  split; [exact E|]. split.
  - rewrite getAddress_run. exact E.
  - eapply events_of_log. rewrite ResetRegisters_run.
    unfold getAddress_of. cbn. now rewrite E.
Qed.

Lemma address_unset_until_begin_witness :
  events_of (ResetRegisters Normal) quiet_bus
    (after (run_calls [CallSetEnablePin 4; CallSetBankBrightness 0x80 Normal])
       quiet_bus (new_object (NewWithOrder GRB) quiet_bus 0x5A))
  = [I2cWriteByte 0x5A RESET_REGISTERS 0xFF].
Proof.
  apply (address_unset_until_begin (NewWithOrder GRB) 0x5A quiet_bus
           [CallSetEnablePin 4; CallSetBankBrightness 0x80 Normal]).
  reflexivity.
Defined.

(** ** What a call puts on the bus, on the pin and on the clock *)

Ltac list_call_events w :=
  rewrite invoke_events; unfold call_events;
  try destruct (has_enable_pin (dev w));
  cbn [app filter is_transfer is_read is_pin_event length
       blocking_time fold_right blocked_micros].

(** X6.  A call issues at most three bus transactions and at most one read;
    a read is always addressed to the primary address, never resolved from
    an address kind.  [SetEnablePin], [SetLEDConfiguration] and
    [SetI2CAddress] issue no bus transaction at all; every other call
    issues at least one. *)
Theorem bus_traffic_of_a_call :
  forall (c : Call) (t : Transport) (w : World),
    let evs := events_of (invoke c) t w in
    (length (filter is_transfer evs) <= 3)%nat
    /\ (length (filter is_read evs) <= 1)%nat
    /\ Forall (fun e => on_address (_i2c_address (dev w)) e = true)
         (filter is_read evs)
    /\ match c with
       | CallSetEnablePin _ | CallSetLEDConfiguration _
       | CallSetI2CAddress _ => filter is_transfer evs = []
       | _ => (1 <= length (filter is_transfer evs))%nat
       end.
Proof.
  intros c t w evs. subst evs.
  destruct c; list_call_events w;
    (split; [lia | split; [lia | split; [| reflexivity || lia]]]);
    repeat constructor; cbn [on_address]; apply Z.eqb_refl.
Qed.

(** X7.  Only [Begin] and [Reset] hold the caller: [Begin] for 500
    microseconds, [Reset] for 10.5 ms with an enable pin and not at all
    without.  Only they drive the pin ([Begin] high; [Reset] low then
    high), and only [SetEnablePin] sets its mode. *)
Theorem pin_and_timing_of_a_call :
  forall (c : Call) (t : Transport) (w : World),
    let evs := events_of (invoke c) t w in
    let pin := _enable_pin (dev w) in
    blocking_time evs =
      match c with
      | CallBegin _ => 500
      | CallReset => if has_enable_pin (dev w) then 10500 else 0
      | _ => 0
      end
    /\ filter is_pin_event evs =
      match c with
      | CallBegin _ =>
          if has_enable_pin (dev w) then [DigitalWrite pin HIGH] else []
      | CallReset =>
          if has_enable_pin (dev w)
          then [DigitalWrite pin LOW; DigitalWrite pin HIGH] else []
      | CallSetEnablePin p => [PinMode p OUTPUT]
      | _ => []
      end.
Proof.
  intros c t w evs pin. subst evs pin.
  destruct c; list_call_events w; split; reflexivity.
Qed.

Lemma SetEnablePin_Begin_Reset_run p a t w :
  (SetEnablePin p ;; Begin a ;; Reset) t w =
  (tt,
   {| dev := with_address a (with_pin p (dev w));
      log := log w ++
        [PinMode p OUTPUT; StoreEnablePin p; I2cInit; StoreI2cAddress a] ++
        (if p =? 0xFF then [] else [DigitalWrite p HIGH]) ++
        [DelayMicroseconds 500; I2cWriteByte a DEVICE_CONFIG0 0x40] ++
        (if p =? 0xFF then []
         else [DigitalWrite p LOW; Delay 10;
               DigitalWrite p HIGH; DelayMicroseconds 500]) ++
        [I2cWriteByte a RESET_REGISTERS 0xFF;
         I2cWriteByte a DEVICE_CONFIG0 0x40] |}).
Proof.
  unfold SetEnablePin, Begin, Reset, ResetRegisters. run_prims.
  destruct (p =? 255) eqn:E; run_prims; rewrite ?E; run_prims; tidy_log;
    reflexivity.
Qed.

(** X8.  The value 0xFF stands for "no enable pin" even when the caller
    passes it as a pin: after [SetEnablePin(0xFF)] the pin mode has been
    set, but [Begin] and [Reset] never drive the pin and [Reset] does not
    wait.  With any other pin number they drive it high, low, high and
    together hold the caller for 11 ms. *)
Theorem enable_pin_255_means_no_pin :
  forall (p address : Z) (t : Transport) (w : World),
    let evs := events_of (SetEnablePin p ;; Begin address ;; Reset) t w in
    filter is_pin_event evs =
      PinMode p OUTPUT ::
      (if p =? 0xFF then []
       else [DigitalWrite p HIGH; DigitalWrite p LOW; DigitalWrite p HIGH])
    /\ blocking_time evs = (if p =? 0xFF then 500 else 11000)
    /\ filter is_transfer evs =
         [I2cWriteByte address DEVICE_CONFIG0 0x40;
          I2cWriteByte address RESET_REGISTERS 0xFF;
          I2cWriteByte address DEVICE_CONFIG0 0x40].
Proof.
  intros p a t w evs. subst evs.
  erewrite events_of_log by apply SetEnablePin_Begin_Reset_run.
  destruct (p =? 255); repeat split; reflexivity.
Qed.

(** ** The color bytes *)

Lemma permute_rearranges order r g b :
  Permutation (triple_bytes (permute order r g b)) [r; g; b].
Proof.
  destruct order; cbn [permute triple_bytes].
  - apply Permutation_refl.
  - apply perm_swap.
  - apply (Permutation_sym (Permutation_rev [r; g; b])).
  - apply perm_skip, perm_swap.
  - apply (Permutation_sym (Permutation_cons_append [g; b] r)).
  - apply (Permutation_cons_append [r; g] b).
Qed.

Lemma permute_tells_the_order order order' r g b :
  r <> g -> g <> b -> r <> b ->
  permute order r g b = permute order' r g b -> order = order'.
Proof.
  intros Hrg Hgb Hrb H.
  destruct order, order'; try reflexivity;
    cbn [permute] in H; injection H; intros; congruence.
Qed.

(** X9.  The three bytes of a color burst are r, g and b, each once, in
    some order: no channel is dropped or sent twice.  When r, g and b are
    pairwise different, two different channel orders give different
    bursts. *)
Theorem color_payload_is_a_rearrangement :
  forall (order order' : LED_Configuration) (led r g b : Z)
         (k : EAddressType) (t : Transport) (d : LP50XX) (l : list Event),
    (exists p,
        bank_bursts order r g b k t d l = [p]
        /\ led_bursts order led r g b k t d l = [p]
        /\ Permutation p [r; g; b])
    /\ (r <> g -> g <> b -> r <> b -> order <> order' ->
        bank_bursts order r g b k t d l <> bank_bursts order' r g b k t d l
        /\ led_bursts order led r g b k t d l
           <> led_bursts order' led r g b k t d l).
Proof.
  intros order order' led r g b k t d l. split.
  - exists (triple_bytes (permute order r g b)).
    rewrite bank_bursts_permute, led_bursts_permute.
    repeat split. apply permute_rearranges.
  - intros Hrg Hgb Hrb Hne.
    rewrite !bank_bursts_permute, !led_bursts_permute.
    assert (D : [triple_bytes (permute order r g b)]
                <> [triple_bytes (permute order' r g b)]).
    { intros H. apply Hne.
      apply (permute_tells_the_order order order' r g b Hrg Hgb Hrb).
      destruct order, order'; cbn [permute triple_bytes] in H |- *;
        try reflexivity; injection H; intros; congruence. }
    split; exact D.
Qed.

Lemma color_payload_is_a_rearrangement_witness :
  bank_bursts RGB 1 2 3 Broadcast quiet_bus (dev board_with_pin) []
  <> bank_bursts GRB 1 2 3 Broadcast quiet_bus (dev board_with_pin) [].
Proof.
  apply (proj2 (color_payload_is_a_rearrangement RGB GRB 0 1 2 3 Broadcast
                  quiet_bus (dev board_with_pin) []));
    discriminate.
Defined.

(** ** Indices out of range *)

(** X10.  The LED and output indices go into the register number
    unchecked, so one function reaches the registers of another:
    [SetLEDBrightness] with index 8 + n does what [SetOutputColor] does
    with index n, for every n; and with the value 0xFF, LED index 0x20 or
    output index 0x18 does what [ResetRegisters] does. *)
Theorem unchecked_index_reaches_other_registers :
  forall (n v : Z) (k : EAddressType) (t : Transport) (w : World),
    SetLEDBrightness (8 + n) v k t w = SetOutputColor n v k t w
    /\ SetLEDBrightness 0x20 0xFF k t w = ResetRegisters k t w
    /\ SetOutputColor 0x18 0xFF k t w = ResetRegisters k t w.
Proof.
  intros n v k t w.
  rewrite !SetLEDBrightness_run, !SetOutputColor_run, ResetRegisters_run.
  repeat split.
  replace (LED0_BRIGHTNESS + (8 + n)) with (OUT0_COLOR + n)
    by (unfold LED0_BRIGHTNESS, OUT0_COLOR; lia).
  reflexivity.
Qed.

(** ** On a device that stores what it is sent *)

Lemma to_u8_idem x : to_u8 (to_u8 x) = to_u8 x.
Proof. unfold to_u8. apply Z.mod_mod. lia. Qed.

Lemma register_file_app init h evs :
  register_file init (h ++ evs)
  = fold_left apply_event evs (register_file init h).
Proof. unfold register_file. apply fold_left_app. Qed.

Lemma contents_u8 init w a r : is_u8 (contents init w a r).
Proof. apply to_u8_range. Qed.

Lemma fst_bind {A B : Type} (c : M A) (k : M B) t w :
  fst ((c ;; k) t w) = fst (k t (after c t w)).
Proof.
  unfold after, bind. destruct (c t w) as [x w']. reflexivity.
Qed.

Lemma ReadRegister_on_loopback reg init ackf w :
  fst (ReadRegister reg (loopback init ackf) w)
  = contents init w (_i2c_address (dev w)) reg.
Proof. reflexivity. Qed.

Lemma land_3F_range f : 0 <= Z.land f 0x3F < 64.
Proof.
  change 0x3F with (Z.ones 6). rewrite Z.land_ones by lia.
  apply Z.mod_pos_bound. lia.
Qed.

Lemma contents_app init d l evs a r :
  contents init {| dev := d; log := l ++ evs |} a r
  = to_u8 (fold_left apply_event evs (register_file init l) a r).
Proof. unfold contents. cbn [log]. now rewrite register_file_app. Qed.

Lemma contents_after_setter c u init ackf w a' r' :
  contents init (after (setter_of c u) (loopback init ackf) w) a' r'
  = if (a' =? _i2c_address (dev w)) && (r' =? DEVICE_CONFIG1)
    then rmw_write (bit_of c) u
           (contents init w (_i2c_address (dev w)) DEVICE_CONFIG1)
    else contents init w a' r'.
Proof.
  unfold after. rewrite setter_of_run. cbn [snd].
  rewrite contents_app. cbn [fold_left apply_event].
  destruct ((a' =? _i2c_address (dev w)) && (r' =? DEVICE_CONFIG1));
    [| reflexivity].
  rewrite to_u8_idem.
  apply to_u8_small, rmw_write_u8; [apply bit_of_range | apply to_u8_range].
Qed.

Lemma dev_after_setter c u t w : dev (after (setter_of c u) t w) = dev w.
Proof. unfold after. now rewrite setter_of_run. Qed.

Lemma contents_after_Configure f init ackf w a' r' :
  contents init (after (Configure f Normal) (loopback init ackf) w) a' r'
  = if (a' =? _i2c_address (dev w)) && (r' =? DEVICE_CONFIG1)
    then Z.land f 0x3F
    else contents init w a' r'.
Proof.
  unfold after. rewrite Configure_run. cbn [snd].
  rewrite contents_app. cbn [fold_left apply_event].
  change (getAddress_of (dev w) Normal) with (_i2c_address (dev w)).
  destruct ((a' =? _i2c_address (dev w)) && (r' =? DEVICE_CONFIG1));
    [| reflexivity].
  rewrite to_u8_idem.
  apply to_u8_small. pose proof (land_3F_range f). unfold is_u8. lia.
Qed.

Lemma bit_of_injective c1 c2 : bit_of c1 = bit_of c2 -> c1 = c2.
Proof. destruct c1, c2; cbn; intros H; try reflexivity; discriminate. Qed.

Lemma rmw_write_commute k1 k2 u v x :
  0 <= k1 < 8 -> 0 <= k2 < 8 -> k1 <> k2 -> is_u8 x ->
  rmw_write k2 v (rmw_write k1 u x) = rmw_write k1 u (rmw_write k2 v x).
Proof.
  intros H1 H2 Hne Hx. apply Z.bits_inj'. intros i _.
  rewrite !rmw_write_bits by (auto using rmw_write_u8).
  destruct (Z.eqb_spec i k1), (Z.eqb_spec i k2); try reflexivity; lia.
Qed.

Lemma rmw_write_last_wins k u v x :
  0 <= k < 8 -> is_u8 x ->
  rmw_write k v (rmw_write k u x) = rmw_write k v x.
Proof.
  intros Hk Hx. apply Z.bits_inj'. intros i _.
  rewrite !rmw_write_bits by (auto using rmw_write_u8).
  destruct (Z.eqb_spec i k); reflexivity.
Qed.

Lemma contents_after_two_setters c1 c2 u v init ackf w a' r' :
  contents init
    (after (setter_of c1 u ;; setter_of c2 v) (loopback init ackf) w) a' r'
  = if (a' =? _i2c_address (dev w)) && (r' =? DEVICE_CONFIG1)
    then rmw_write (bit_of c2) v
           (rmw_write (bit_of c1) u
              (contents init w (_i2c_address (dev w)) DEVICE_CONFIG1))
    else contents init w a' r'.
Proof.
  rewrite after_bind, contents_after_setter, dev_after_setter.
  rewrite !contents_after_setter.
  rewrite !Z.eqb_refl. cbn [andb].
  destruct ((a' =? _i2c_address (dev w)) && (r' =? DEVICE_CONFIG1));
    reflexivity.
Qed.

(** X11.  On a device that stores what it is sent, a register written with
    [WriteRegister] at the primary address reads back through
    [ReadRegister] as the byte written (the value modulo 256), and reading
    any other register is not disturbed by the write. *)
Theorem write_then_read_round_trip :
  forall (init : Z -> Z -> Z) (ackf : list Event -> bool) (reg reg' v : Z)
         (w : World),
    let device := loopback init ackf in
    fst ((WriteRegister reg v Normal ;; ReadRegister reg) device w) = to_u8 v
    /\ (reg' <> reg ->
        fst ((WriteRegister reg v Normal ;; ReadRegister reg') device w)
        = fst (ReadRegister reg' device w)).
Proof.
  intros init ackf reg reg' v w device. subst device.
  unfold WriteRegister, ReadRegister. run_prims.
  cbn [rx loopback]. rewrite !register_file_app.
  cbn [fold_left apply_event].
  change (getAddress_of (dev w) Normal) with (_i2c_address (dev w)).
  rewrite !Z.eqb_refl. cbn [andb]. split.
  - apply to_u8_idem.
  - intros Hne. now destruct (Z.eqb_spec reg' reg).
Qed.

Lemma write_then_read_round_trip_witness :
  fst ((WriteRegister BANK_BRIGHTNESS 0x80 Normal ;; ReadRegister LED_CONFIG0)
         (loopback (fun _ _ => 0x0F) (fun _ => true)) board_with_pin)
  = fst (ReadRegister LED_CONFIG0
           (loopback (fun _ _ => 0x0F) (fun _ => true)) board_with_pin).
Proof.
  apply (proj2 (write_then_read_round_trip (fun _ _ => 0x0F) (fun _ => true)
                  BANK_BRIGHTNESS LED_CONFIG0 0x80 board_with_pin)).
  discriminate.
Defined.

(** X12.  On such a device two different setters can be called in either
    order with the same registers as a result; calling one setter twice
    leaves what the second call alone would leave; and a setter changes no
    register but the configuration register at the primary address. *)
Theorem setters_compose_on_a_storing_device :
  forall (c1 c2 : ConfigBit) (u v : Z) (init : Z -> Z -> Z)
         (ackf : list Event -> bool) (w : World) (a r : Z),
    let device := loopback init ackf in
    (c1 <> c2 ->
     contents init (after (setter_of c1 u ;; setter_of c2 v) device w) a r
     = contents init (after (setter_of c2 v ;; setter_of c1 u) device w) a r)
    /\ contents init (after (setter_of c1 u ;; setter_of c1 v) device w) a r
       = contents init (after (setter_of c1 v) device w) a r
    /\ ((a =? _i2c_address (dev w)) && (r =? DEVICE_CONFIG1) = false ->
        contents init (after (setter_of c1 u) device w) a r
        = contents init w a r).
Proof.
  intros c1 c2 u v init ackf w a r device. subst device.
  rewrite !contents_after_two_setters, !contents_after_setter.
  destruct ((a =? _i2c_address (dev w)) && (r =? DEVICE_CONFIG1)).
  - split; [| split].
    + intros Hne. symmetry. apply rmw_write_commute.
      * apply bit_of_range.
      * apply bit_of_range.
      * intros E. apply Hne. symmetry. now apply bit_of_injective.
      * apply contents_u8.
    + apply rmw_write_last_wins; [apply bit_of_range | apply contents_u8].
    + discriminate.
  - repeat split.
Qed.

Lemma setters_compose_on_a_storing_device_witness :
  contents (fun _ _ => 0xC0)
    (after (SetScaling LOG_SCALE_ON ;; SetGlobalLedOff LED_GLOBAL_OFF)
       (loopback (fun _ _ => 0xC0) (fun _ => false)) board_without_pin)
    0x14 0x01
  = contents (fun _ _ => 0xC0)
      (after (SetGlobalLedOff LED_GLOBAL_OFF ;; SetScaling LOG_SCALE_ON)
         (loopback (fun _ _ => 0xC0) (fun _ => false)) board_without_pin)
      0x14 0x01
  /\ contents (fun _ _ => 0xC0)
       (after (SetScaling LOG_SCALE_ON)
          (loopback (fun _ _ => 0xC0) (fun _ => false)) board_without_pin)
       0x14 BANK_BRIGHTNESS
     = contents (fun _ _ => 0xC0) board_without_pin 0x14 BANK_BRIGHTNESS.
Proof.
  split.
  - apply (proj1 (setters_compose_on_a_storing_device LogScale GlobalOff
                    LOG_SCALE_ON LED_GLOBAL_OFF (fun _ _ => 0xC0)
                    (fun _ => false) board_without_pin 0x14 0x01)).
    discriminate.
  - apply (proj2 (proj2 (setters_compose_on_a_storing_device LogScale
                           LogScale LOG_SCALE_ON 0 (fun _ _ => 0xC0)
                           (fun _ => false) board_without_pin 0x14
                           BANK_BRIGHTNESS))).
    reflexivity.
Defined.

(** X13.  On such a device the configuration register reads back, after
    [Configure(f)], as [f & 0x3F]: bits 6 and 7 are cleared.  After a
    setter it reads back with the setter's bit as asked and every other
    bit, 6 and 7 included, as it was stored.  After [Configure(f)] followed
    by a setter it holds the six bits of [f] with the setter's bit
    replaced. *)
Theorem configuration_reads_back :
  forall (c : ConfigBit) (f u : Z) (init : Z -> Z -> Z)
         (ackf : list Event -> bool) (w : World),
    let device := loopback init ackf in
    let x := contents init w (_i2c_address (dev w)) DEVICE_CONFIG1 in
    fst ((Configure f Normal ;; ReadRegister DEVICE_CONFIG1) device w)
      = Z.land f 0x3F
    /\ (forall i : Z,
          Z.testbit
            (fst ((setter_of c u ;; ReadRegister DEVICE_CONFIG1) device w)) i
          = if i =? bit_of c then Z.testbit u (bit_of c) else Z.testbit x i)
    /\ (forall i : Z,
          Z.testbit
            (fst ((Configure f Normal ;; setter_of c u ;;
                   ReadRegister DEVICE_CONFIG1) device w)) i
          = if i =? bit_of c then Z.testbit u (bit_of c)
            else (i <? 6) && Z.testbit f i).
Proof.
  intros c f u init ackf w device x. subst device x.
  repeat split.
  - rewrite fst_bind, ReadRegister_on_loopback, contents_after_Configure.
    unfold after at 1. rewrite Configure_run. cbn [snd dev].
    now rewrite !Z.eqb_refl.
  - intros i.
    rewrite fst_bind, ReadRegister_on_loopback, contents_after_setter.
    rewrite dev_after_setter, !Z.eqb_refl. cbn [andb].
    apply rmw_write_bits; [apply bit_of_range | apply contents_u8].
  - intros i.
    rewrite fst_bind, fst_bind, ReadRegister_on_loopback.
    rewrite contents_after_setter, dev_after_setter.
    rewrite contents_after_Configure.
    unfold after at 1 2. rewrite Configure_run. cbn [snd dev].
    rewrite !Z.eqb_refl. cbn [andb].
    rewrite rmw_write_bits, low_six_bits;
      [reflexivity | apply bit_of_range |].
    pose proof (land_3F_range f). unfold is_u8. lia.
Qed.

Lemma contents_after_WriteRegister reg v k init ackf w a' r' :
  contents init (after (WriteRegister reg v k) (loopback init ackf) w) a' r'
  = if (a' =? getAddress_of (dev w) k) && (r' =? reg) then to_u8 v
    else contents init w a' r'.
Proof.
  unfold after, WriteRegister. run_prims.
  rewrite contents_app. cbn [fold_left apply_event].
  destruct ((a' =? getAddress_of (dev w) k) && (r' =? reg));
    [apply to_u8_idem | reflexivity].
Qed.

Lemma dev_after_WriteRegister reg v k t w :
  dev (after (WriteRegister reg v k) t w) = dev w.
Proof. reflexivity. Qed.

Lemma contents_after_SetBankColor r g b k init ackf w a' r' :
  contents init (after (SetBankColor r g b k) (loopback init ackf) w) a' r'
  = if (a' =? getAddress_of (dev w) k)
       && (BANK_A_COLOR <=? r') && (r' <? BANK_A_COLOR + 3)
    then to_u8 (nth (Z.to_nat (r' - BANK_A_COLOR))
                  (triple_bytes (permute (_led_configuration (dev w)) r g b))
                  0)
    else if (a' =? _i2c_address (dev w)) && (r' =? DEVICE_CONFIG1)
    then Z.lor (contents init w (_i2c_address (dev w)) DEVICE_CONFIG1) 0x08
    else contents init w a' r'.
Proof.
  unfold after. rewrite SetBankColor_run. cbn [snd].
  rewrite contents_app. cbn [fold_left apply_event].
  destruct ((a' =? getAddress_of (dev w) k)
            && (BANK_A_COLOR <=? r') && (r' <? BANK_A_COLOR + 3));
    [apply to_u8_idem |].
  destruct ((a' =? _i2c_address (dev w)) && (r' =? DEVICE_CONFIG1));
    [| reflexivity].
  rewrite to_u8_idem.
  apply lor_u8; [apply to_u8_range | unfold is_u8; lia].
Qed.

Lemma contents_after_SetLEDColor led r g b k init ackf w a' r' :
  contents init (after (SetLEDColor led r g b k) (loopback init ackf) w) a' r'
  = if (a' =? getAddress_of (dev w) k)
       && (OUT0_COLOR + led * 3 <=? r') && (r' <? OUT0_COLOR + led * 3 + 3)
    then to_u8 (nth (Z.to_nat (r' - (OUT0_COLOR + led * 3)))
                  (triple_bytes (permute (_led_configuration (dev w)) r g b))
                  0)
    else if (a' =? _i2c_address (dev w)) && (r' =? DEVICE_CONFIG1)
    then Z.lor (contents init w (_i2c_address (dev w)) DEVICE_CONFIG1) 0x08
    else contents init w a' r'.
Proof.
  unfold after. rewrite SetLEDColor_run. cbn [snd].
  rewrite contents_app. cbn [fold_left apply_event].
  destruct ((a' =? getAddress_of (dev w) k)
            && (OUT0_COLOR + led * 3 <=? r')
            && (r' <? OUT0_COLOR + led * 3 + 3));
    [apply to_u8_idem |].
  destruct ((a' =? _i2c_address (dev w)) && (r' =? DEVICE_CONFIG1));
    [| reflexivity].
  rewrite to_u8_idem.
  apply lor_u8; [apply to_u8_range | unfold is_u8; lia].
Qed.




Lemma rmw_write_auto_inc_on x :
  is_u8 x -> rmw_write 3 AUTO_INC_ON x = Z.lor x 0x08.
Proof.
  intros Hx. unfold rmw_write. change (c_true _) with true. cbv iota.
  change (Z.shiftl 1 3) with 8.
  apply lor_u8; [exact Hx | unfold is_u8; lia].
Qed.



Lemma contents_after_forcing init ackf w a' r' :
  contents init
    (after (SetAutoIncrement AUTO_INC_ON) (loopback init ackf) w) a' r'
  = if (a' =? _i2c_address (dev w)) && (r' =? DEVICE_CONFIG1)
    then Z.lor (contents init w (_i2c_address (dev w)) DEVICE_CONFIG1) 0x08
    else contents init w a' r'.
Proof.
  change (SetAutoIncrement AUTO_INC_ON) with (setter_of AutoInc AUTO_INC_ON).
  rewrite contents_after_setter.
  destruct ((a' =? _i2c_address (dev w)) && (r' =? DEVICE_CONFIG1));
    [| reflexivity].
  apply rmw_write_auto_inc_on, contents_u8.
Qed.

(** Three byte writes to consecutive registers store what one burst of the
    same three bytes stores. *)
Lemma burst_as_three_writes (a base p0 p1 p2 a' r' rest : Z) :
  (if (a' =? a) && (base <=? r') && (r' <? base + 3)
   then to_u8 (nth (Z.to_nat (r' - base)) [p0; p1; p2] 0)
   else rest)
  = if (a' =? a) && (r' =? base + 2) then to_u8 p2
    else if (a' =? a) && (r' =? base + 1) then to_u8 p1
    else if (a' =? a) && (r' =? base) then to_u8 p0
    else rest.
Proof.
  destruct (Z.eqb_spec a' a) as [_|_]; cbn [andb]; [| reflexivity].
  destruct (Z.eqb_spec r' (base + 2)) as [->|H2].
  { replace (base + 2 - base) with 2 by lia.
    destruct (Z.leb_spec base (base + 2)); [| lia].
    destruct (Z.ltb_spec (base + 2) (base + 3)); [reflexivity | lia]. }
  destruct (Z.eqb_spec r' (base + 1)) as [->|H1].
  { replace (base + 1 - base) with 1 by lia.
    destruct (Z.leb_spec base (base + 1)); [| lia].
    destruct (Z.ltb_spec (base + 1) (base + 3)); [reflexivity | lia]. }
  destruct (Z.eqb_spec r' base) as [->|H0].
  { rewrite Z.sub_diag.
    destruct (Z.leb_spec base base); [| lia].
    destruct (Z.ltb_spec base (base + 3)); [reflexivity | lia]. }
  destruct (Z.leb_spec base r'); [| reflexivity].
  destruct (Z.ltb_spec r' (base + 3)); [lia | reflexivity].
Qed.

(** X15.  On such a device [SetBankColor] leaves the registers that
    forcing auto-increment and then [SetBankColorA], [SetBankColorB],
    [SetBankColorC] with the three permuted bytes leave, and [SetLEDColor]
    for LED [led] leaves those that forcing auto-increment and then
    [SetOutputColor] for outputs 3 led, 3 led + 1, 3 led + 2 leave. *)
Theorem color_burst_equals_single_writes :
  forall (led r g b : Z) (k : EAddressType) (init : Z -> Z -> Z)
         (ackf : list Event -> bool) (w : World) (a' r' : Z),
    let device := loopback init ackf in
    let '(p0, p1, p2) := permute (_led_configuration (dev w)) r g b in
    contents init (after (SetBankColor r g b k) device w) a' r'
    = contents init
        (after (SetAutoIncrement AUTO_INC_ON ;; SetBankColorA p0 k ;;
                SetBankColorB p1 k ;; SetBankColorC p2 k) device w) a' r'
    /\ contents init (after (SetLEDColor led r g b k) device w) a' r'
       = contents init
           (after (SetAutoIncrement AUTO_INC_ON ;;
                   SetOutputColor (led * 3) p0 k ;;
                   SetOutputColor (led * 3 + 1) p1 k ;;
                   SetOutputColor (led * 3 + 2) p2 k) device w) a' r'.
Proof.
  intros led r g b k init ackf w a' r' device. subst device.
  destruct (permute (_led_configuration (dev w)) r g b) as [[p0 p1] p2] eqn:E.
  rewrite contents_after_SetBankColor, contents_after_SetLEDColor, E.
  cbn [triple_bytes].
  change SetBankColorA with (WriteRegister BANK_A_COLOR).
  change SetBankColorB with (WriteRegister BANK_B_COLOR).
  change SetBankColorC with (WriteRegister BANK_C_COLOR).
  change (SetOutputColor (led * 3) p0 k)
    with (WriteRegister (OUT0_COLOR + led * 3) p0 k).
  change (SetOutputColor (led * 3 + 1) p1 k)
    with (WriteRegister (OUT0_COLOR + (led * 3 + 1)) p1 k).
  change (SetOutputColor (led * 3 + 2) p2 k)
    with (WriteRegister (OUT0_COLOR + (led * 3 + 2)) p2 k).
  rewrite !after_bind.
  rewrite !contents_after_WriteRegister, !dev_after_WriteRegister.
  replace (dev (after (SetAutoIncrement AUTO_INC_ON) (loopback init ackf) w))
    with (dev w)
    by (symmetry; apply (dev_after_setter AutoInc)).
  rewrite !contents_after_forcing.
  rewrite !burst_as_three_writes.
  replace (OUT0_COLOR + (led * 3 + 2)) with (OUT0_COLOR + led * 3 + 2) by lia.
  replace (OUT0_COLOR + (led * 3 + 1)) with (OUT0_COLOR + led * 3 + 1) by lia.
  split; reflexivity.
Qed.
